(** * Telemetry pipeline: sampling agent and collector service

    A shallow embedding of [agent/agent.py] (the sampling agent) and
    [api/main.py] (the FastAPI collector), with the properties of the
    behavioural specification stated and settled over it.

    Conventions.
    - A Python [str] is a [string] holding its UTF-8 bytes, one [ascii] per
      byte; a file is the [string] of its bytes, decoded when it is read.
    - Python [int] is [Z]; a finite Python [float] is the rational [Q] it
      stands for (no NaN, no infinities, no negative zero).
    - A Python [dict] is an association list in insertion order; a key is
      looked up at its first binding.
    - Code that can raise returns a [result]; an endpoint returns the HTTP
      [response] that FastAPI builds from the handler's return or exception.
    - The data directory is a finite map from file names to file contents;
      every file can be opened for appending.
    - What the program takes from libraries and the system it runs on (the
      [json] codec, [fnmatch], the lexical side of pydantic's coercions,
      which files can be opened, how far a file is read before a decoding
      error) is a [Runtime] the definitions are parameterised by; [py] is a
      reference instance used to run them.
    - Left out: what is printed, the agent's scheduling loop, and requests
      handled at the same time. *)

From Stdlib Require Import ZArith QArith Ascii String.
From stdpp Require Import base option list sorting gmap strings.

Local Open Scope Z_scope.

(** ** Text *)

Module Text.

(** [s.startswith(p)] *)
Fixpoint startswith (p s : string) : bool :=
  match p, s with
  | EmptyString, _ => true
  | String a p', String b s' => Ascii.eqb a b && startswith p' s'
  | String _ _, EmptyString => false
  end.

(** [s.split(sep)] for a one-character separator: every occurrence of the
    separator cuts, so consecutive separators give empty pieces and the
    result is never empty. *)
Fixpoint split (sep : ascii) (s : string) : list string :=
  match s with
  | EmptyString => [EmptyString]
  | String c r =>
      if Ascii.eqb c sep then EmptyString :: split sep r
      else match split sep r with
           | [] => [String c EmptyString]
           | h :: t => String c h :: t
           end
  end.

(** [sep not in s] *)
Fixpoint lacks (sep : ascii) (s : string) : bool :=
  match s with
  | EmptyString => true
  | String c r => negb (Ascii.eqb c sep) && lacks sep r
  end.

(** [str.isspace] on the characters below U+0080, one byte each: tab, line
    feed, vertical tab, form feed, carriage return, the four separators
    0x1c..0x1f, and the space. *)
Definition isspace (c : ascii) : bool :=
  let n := nat_of_ascii c in
  ((9 <=? n) && (n <=? 13))%nat || ((28 <=? n) && (n <=? 32))%nat.

(** [str.isspace] on the characters of two bytes: U+0085 and U+00A0. *)
Definition isspace2 (a b : ascii) : bool :=
  ((nat_of_ascii a =? 194) &&
   ((nat_of_ascii b =? 133) || (nat_of_ascii b =? 160)))%nat.

(** [str.isspace] on the characters of three bytes: U+1680, U+2000..U+200A,
    U+2028, U+2029, U+202F, U+205F and U+3000. No longer character is white
    space. *)
Definition isspace3 (a b c : ascii) : bool :=
  let x := nat_of_ascii a in
  let y := nat_of_ascii b in
  let z := nat_of_ascii c in
  (((x =? 225) && (y =? 154) && (z =? 128)) ||
   ((x =? 226) && (y =? 128) &&
    (((128 <=? z) && (z <=? 138)) || (z =? 168) || (z =? 169) || (z =? 175))) ||
   ((x =? 226) && (y =? 129) && (z =? 159)) ||
   ((x =? 227) && (y =? 128) && (z =? 128)))%nat.

(** [bool(s.strip())]: some character of [s] is not white space. White
    space characters are passed over, whatever their length in bytes; the
    first character that is not one settles it. *)
Fixpoint nonblank (s : string) : bool :=
  match s with
  | EmptyString => false
  | String a r =>
      if isspace a then nonblank r
      else
        match r with
        | String b r2 =>
            if isspace2 a b then nonblank r2
            else
              match r2 with
              | String c r3 => if isspace3 a b c then nonblank r3 else true
              | EmptyString => true
              end
        | EmptyString => true
        end
  end.

(** [s.isascii()] *)
Fixpoint isascii (s : string) : bool :=
  match s with
  | EmptyString => true
  | String c r => (nat_of_ascii c <? 128)%nat && isascii r
  end.

(** Whether bytes decode as UTF-8 (the [strict] codec): a byte below 0x80;
    or a lead byte 0xC2..0xDF, 0xE0..0xEF or 0xF0..0xF4 with one, two or
    three continuation bytes 0x80..0xBF, the first of them further limited
    after 0xE0 (no overlong form), 0xED (no surrogate), 0xF0 (no overlong
    form) and 0xF4 (nothing above U+10FFFF). *)
Definition continuation (c : ascii) : bool :=
  ((128 <=? nat_of_ascii c) && (nat_of_ascii c <=? 191))%nat.

Definition second_of_three (lead c : ascii) : bool :=
  let x := nat_of_ascii lead in
  let y := nat_of_ascii c in
  (if x =? 224 then (160 <=? y) && (y <=? 191)
   else if x =? 237 then (128 <=? y) && (y <=? 159)
   else (128 <=? y) && (y <=? 191))%nat.

Definition second_of_four (lead c : ascii) : bool :=
  let x := nat_of_ascii lead in
  let y := nat_of_ascii c in
  (if x =? 240 then (144 <=? y) && (y <=? 191)
   else if x =? 244 then (128 <=? y) && (y <=? 143)
   else (128 <=? y) && (y <=? 191))%nat.

Fixpoint utf8_valid (s : string) : bool :=
  match s with
  | EmptyString => true
  | String a r =>
      let x := nat_of_ascii a in
      if (x <? 128)%nat then utf8_valid r
      else
        match r with
        | String b r2 =>
            if ((194 <=? x) && (x <=? 223))%nat then continuation b && utf8_valid r2
            else
              match r2 with
              | String c r3 =>
                  if ((224 <=? x) && (x <=? 239))%nat then
                    second_of_three a b && continuation c && utf8_valid r3
                  else
                    match r3 with
                    | String d r4 =>
                        ((240 <=? x) && (x <=? 244))%nat && second_of_four a b &&
                        continuation c && continuation d && utf8_valid r4
                    | EmptyString => false
                    end
              | EmptyString => false
              end
        | EmptyString => false
        end
  end.

Definition LF : ascii := ascii_of_nat 10.
Definition CR : ascii := ascii_of_nat 13.

(** Iterating a file opened in text mode with universal newlines: each line
    keeps its terminator, and the terminators [\r\n] and [\r] are read as
    [\n]. A text not ended by a terminator gives a last line without one. *)
Fixpoint lines_from (cur : string) (s : string) : list string :=
  match s with
  | EmptyString => match cur with EmptyString => [] | _ => [cur] end
  | String c r =>
      if Ascii.eqb c LF then (cur +:+ String LF EmptyString) :: lines_from EmptyString r
      else if Ascii.eqb c CR then
        match r with
        | String c' r' =>
            if Ascii.eqb c' LF
            then (cur +:+ String LF EmptyString) :: lines_from EmptyString r'
            else (cur +:+ String LF EmptyString) :: lines_from EmptyString r
        | EmptyString => [cur +:+ String LF EmptyString]
        end
      else lines_from (cur +:+ String c EmptyString) r
  end.

Definition readlines (s : string) : list string := lines_from EmptyString s.

(** Order of [str] comparison: by code point, a proper prefix first. *)
Fixpoint leb (s t : string) : bool :=
  match s, t with
  | EmptyString, _ => true
  | String _ _, EmptyString => false
  | String a s', String b t' =>
      if (nat_of_ascii a <? nat_of_ascii b)%nat then true
      else if (nat_of_ascii b <? nat_of_ascii a)%nat then false
      else leb s' t'
  end.

End Text.

(** ** Exceptions and results *)

Inductive exn : Type :=
  | HTTPException (status_code : Z) (detail : string)
  | IndexError.

Inductive result (A : Type) : Type :=
  | Return (a : A)
  | Raise (e : exn).
Arguments Return {A} a.
Arguments Raise {A} e.

(** ** Collector: configuration and token check *)

Definition API_TOKEN : string := "micompania_secret_token_12345".
Definition DATA_DIR : string := "data".

(** [verify_token]: the header must start with ["Bearer "]; the piece at
    index 1 of the header split on spaces must be the configured token.
    Indexing a piece that does not exist raises [IndexError]. *)
Definition verify_token (authorization : string) : result unit :=
  if negb (Text.startswith "Bearer " authorization) then
    Raise (HTTPException 401 "Formato de token inválido")
  else
    match Text.split " " authorization !! 1%nat with
    | None => Raise IndexError
    | Some token =>
        if negb (String.eqb token API_TOKEN) then
          Raise (HTTPException 401 "Token de autorización inválido")
        else Return tt
    end.

(** ** JSON values

    What [request.json()] and [json.loads] produce and [json.dumps] takes. *)

#[warnings="-register-all"]
Inductive json : Type :=
  | JNull
  | JBool (b : bool)
  | JInt (n : Z)
  | JFloat (q : Q)
  | JStr (s : string)
  | JArr (items : list json)
  | JObj (members : list (string * json)).

Abbreviation dict := (list (string * json)).

(** [d.get(k)] *)
Fixpoint get (k : string) (d : dict) : option json :=
  match d with
  | [] => None
  | (k', v) :: r => if String.eqb k' k then Some v else get k r
  end.

Definition is_dict (v : json) : bool :=
  match v with JObj _ => true | _ => false end.

(** The bindings of a dict (none for another value). *)
Definition members (v : json) : dict :=
  match v with JObj d => d | _ => [] end.

Definition as_number (v : json) : option Q :=
  match v with
  | JBool b => Some (if b then 1%Q else 0%Q)
  | JInt n => Some (inject_Z n)
  | JFloat q => Some q
  | _ => None
  end.

(** Python's [==] on such values: numbers by value (so [1 == 1.0 == True]),
    lists element by element, dicts as sets of bindings. *)
Fixpoint py_eq (a b : json) {struct a} : bool :=
  match a, b with
  | JNull, JNull => true
  | JStr s, JStr t => String.eqb s t
  | JArr xs, JArr ys =>
      (fix all2 (xs ys : list json) {struct xs} : bool :=
         match xs, ys with
         | [], [] => true
         | x :: xs', y :: ys' => py_eq x y && all2 xs' ys'
         | _, _ => false
         end) xs ys
  | JObj m, JObj m' =>
      (length m =? length m')%nat &&
      (fix sub (m : dict) {struct m} : bool :=
         match m with
         | [] => true
         | kv :: r =>
             match get (fst kv) m' with
             | Some v' => py_eq (snd kv) v'
             | None => false
             end && sub r
         end) m
  | _, _ =>
      match as_number a, as_number b with
      | Some x, Some y => Qeq_bool x y
      | _, _ => false
      end
  end.

(** ** Sampling agent: [get_system_info] *)

Module Agent.

(** The exceptions the operating-system queries can raise; every class here
    derives from [Exception]. [ZombieProcess] derives from [NoSuchProcess]. *)
Inductive exception_class : Type :=
  | NoSuchProcess
  | ZombieProcess
  | AccessDenied
  | TimeoutExpired
  | AttributeError
  | OtherException (qualname : string).

Record exception : Type := {
  exc_class : exception_class;
  exc_str : string;
}.

Inductive outcome (A : Type) : Type :=
  | Returns (a : A)
  | Raises (e : exception).
Arguments Returns {A} a.
Arguments Raises {A} e.

Definition and_then {A B} (m : outcome A) (k : A -> outcome B) : outcome B :=
  match m with
  | Returns a => k a
  | Raises e => Raises e
  end.

#[global] Instance outcome_bind : MBind outcome :=
  fun A B k m => and_then m k.

(** [try: body except Exception as e: handler(e)] *)
Definition try_except {A} (body : outcome A) (handler : exception -> A) : A :=
  match body with
  | Returns a => a
  | Raises e => handler e
  end.

(** [except (psutil.NoSuchProcess, psutil.AccessDenied, psutil.ZombieProcess)] *)
Definition process_handler_catches (c : exception_class) : bool :=
  match c with
  | NoSuchProcess | ZombieProcess | AccessDenied => true
  | _ => false
  end.

Record process : Type := {
  info_pid : Z;
  info_name : option string;
  info_username : option string;
}.

Record session : Type := {
  session_name : string;
  session_terminal : option string;
}.

(** What the host answers to each query of one collection, in the order the
    function asks. [psutil.cpu_freq()] is asked twice: once for the test,
    once for the value. [platform.system()] and [platform.version()] answer
    with a string. *)
Record Host : Type := {
  cpu_count_physical : outcome (option Z);
  cpu_count_logical : outcome (option Z);
  cpu_freq_test : outcome (option Q);
  cpu_freq_read : outcome (option Q);
  cpu_percent : outcome Q;
  process_iter : outcome (list process);
  users : outcome (list session);
  platform_system : string;
  platform_version : string;
}.

Definition opt_json {A} (f : A -> json) (o : option A) : json :=
  match o with Some a => f a | None => JNull end.

Definition read_cpu_info (h : Host) : outcome json :=
  pc ← cpu_count_physical h;
  tc ← cpu_count_logical h;
  fr ← (t ← cpu_freq_test h;
         match t with
         | None => Returns (JStr "N/A")
         | Some _ =>
             r ← cpu_freq_read h;
             match r with
             | Some current => Returns (JFloat current)
             | None =>
                 Raises {| exc_class := AttributeError;
                           exc_str := "'NoneType' object has no attribute 'current'" |}
             end
         end);
  up ← cpu_percent h;
  Returns (JObj [("physical_cores", opt_json JInt pc);
                 ("total_cores", opt_json JInt tc);
                 ("frequency", fr);
                 ("usage_percent", JFloat up)]).

Definition error_marker (message : string) : json :=
  JObj [("error", JStr message)].

Definition process_entry (p : process) : json :=
  JObj [("pid", JInt (info_pid p));
        ("name", opt_json JStr (info_name p));
        ("username", opt_json JStr (info_username p))].

Definition session_entry (u : session) : json :=
  JObj [("user", JStr (session_name u));
        ("terminal", opt_json JStr (session_terminal u))].

(** The process listing: only the three listed psutil classes are handled,
    any other exception leaves the [try] statement. *)
Definition read_processes (h : Host) : outcome json :=
  match process_iter h with
  | Returns ps => Returns (JArr (process_entry <$> ps))
  | Raises e =>
      if process_handler_catches (exc_class e) then
        Returns (JArr [error_marker
                         ("No se pudo acceder a todos los procesos: " +:+ exc_str e)])
      else Raises e
  end.

Definition get_system_info (h : Host) : outcome json :=
  let cpu_info := try_except (read_cpu_info h) (fun e => error_marker (exc_str e)) in
  processes ← read_processes h;
  let active_users :=
    try_except (a ← users h; Returns (JArr (session_entry <$> a)))
               (fun e => error_marker (exc_str e)) in
  Returns (JObj [("os_name", JStr (platform_system h));
                 ("os_version", JStr (platform_version h));
                 ("cpu_info", cpu_info);
                 ("running_processes", processes);
                 ("logged_in_users", active_users)]).

End Agent.

(** ** Library and system behaviour the program relies on *)

Record Runtime : Type := {
  (** [json.dumps] and [json.loads] ([None] when it raises) *)
  json_dumps : json -> string;
  json_loads : string -> option json;
  (** [fnmatch.fnmatch(name, pattern)] as [glob] applies it *)
  fnmatch : string -> string -> bool;
  (** pydantic's lax reading of a [str] as an [int] or a [float], of a
      [float] as an [int] (an integral value within the 64-bit range) and of
      an [int] as a [float] (the nearest one, when there is one) *)
  int_of_str : string -> option Z;
  float_of_str : string -> option Q;
  int_of_float : Q -> option Z;
  float_of_int : Z -> option Q;
  (** whether [open(path, "r")] raises for the file of that name *)
  open_fails : string -> bool;
  (** for contents that are not valid UTF-8: the lines the file iterator
      gives before it raises [UnicodeDecodeError] (contents are decoded a
      block at a time: the lines that end in the blocks before the one that
      does not decode) *)
  lines_before_decode_error : string -> list string;
}.

(** ** Collector: the pydantic models *)

Record CPUInfo : Type := {
  physical_cores : option Z;
  total_cores : option Z;
  frequency : option (Q + string);
  usage_percent : option Q;
  error : option string;
}.

Record ProcessInfo : Type := {
  pid : Z;
  name : string;
  username : option string;
}.

Record UserInfo : Type := {
  user : string;
  terminal : option string;
}.

(** [ProcessInfo | dict] *)
Inductive process_item : Type :=
  | AsProcessInfo (p : ProcessInfo)
  | AsDict (d : dict).

(** [list[UserInfo] | dict] *)
Inductive users_value : Type :=
  | UsersList (l : list UserInfo)
  | UsersDict (d : dict).

Record SystemData : Type := {
  os_name : string;
  os_version : string;
  cpu_info : CPUInfo;
  running_processes : list process_item;
  logged_in_users : users_value;
}.

(** *** Validation (pydantic v2, lax mode, Python input)

    [None] stands for a validation error. A model takes a dict, reads its
    declared fields and ignores every other key (the default
    [extra='ignore']; no model here sets a [model_config]). *)

Section Validation.

Variable rt : Runtime.

Definition validate_str (v : json) : option string :=
  match v with JStr s => Some s | _ => None end.

Definition validate_int (v : json) : option Z :=
  match v with
  | JInt n => Some n
  | JBool b => Some (if b then 1 else 0)
  | JFloat q => int_of_float rt q
  | JStr s => int_of_str rt s
  | _ => None
  end.

(** An [int] field without coercion: an [int] that is not a [bool]. *)
Definition validate_int_strict (v : json) : option Z :=
  match v with
  | JInt n => Some n
  | _ => None
  end.

Definition validate_float (v : json) : option Q :=
  match v with
  | JFloat q => Some q
  | JInt n => float_of_int rt n
  | JBool b => Some (if b then 1%Q else 0%Q)
  | JStr s => float_of_str rt s
  | _ => None
  end.

(** [float | str]: a [str] input is an exact match of the [str] member. *)
Definition validate_float_or_str (v : json) : option (Q + string) :=
  match v with
  | JStr s => Some (inr s)
  | _ => inl <$> validate_float v
  end.

(** A required field [k: T]. *)
Definition required {A} (validate : json -> option A) (d : dict) (k : string)
  : option A :=
  match get k d with
  | Some v => validate v
  | None => None
  end.

(** A field [k: T | None = None]. *)
Definition optional {A} (validate : json -> option A) (d : dict) (k : string)
  : option (option A) :=
  match get k d with
  | None | Some JNull => Some None
  | Some v => Some <$> validate v
  end.

Definition validate_CPUInfo (v : json) : option CPUInfo :=
  match v with
  | JObj d =>
      pc ← optional validate_int d "physical_cores";
      tc ← optional validate_int d "total_cores";
      fr ← optional validate_float_or_str d "frequency";
      up ← optional validate_float d "usage_percent";
      er ← optional validate_str d "error";
      Some {| physical_cores := pc; total_cores := tc; frequency := fr;
              usage_percent := up; error := er |}
  | _ => None
  end.

(** [ProcessInfo] validated without coercion, the way the union below tries
    it: the fields of [str] take a [str] in either mode, so that only [pid]
    is read differently. *)
Definition validate_ProcessInfo (v : json) : option ProcessInfo :=
  match v with
  | JObj d =>
      p ← required validate_int_strict d "pid";
      n ← required validate_str d "name";
      u ← optional validate_str d "username";
      Some {| pid := p; name := n; username := u |}
  | _ => None
  end.

Definition validate_UserInfo (v : json) : option UserInfo :=
  match v with
  | JObj d =>
      u ← required validate_str d "user";
      t ← optional validate_str d "terminal";
      Some {| user := u; terminal := t |}
  | _ => None
  end.

(** [ProcessInfo | dict], a smart union: a dict that validates as
    [ProcessInfo] without coercion becomes the model; every other dict is an
    exact match of the [dict] member and is kept as it is, also when
    [ProcessInfo] would accept it with a coercion. *)
Definition validate_process_item (v : json) : option process_item :=
  match v with
  | JObj d =>
      match validate_ProcessInfo v with
      | Some p => Some (AsProcessInfo p)
      | None => Some (AsDict d)
      end
  | _ => None
  end.

(** [list[ProcessInfo | dict]] *)
Definition validate_running_processes (v : json) : option (list process_item) :=
  match v with
  | JArr items => mapM validate_process_item items
  | _ => None
  end.

(** [list[UserInfo] | dict] *)
Definition validate_logged_in_users (v : json) : option users_value :=
  match v with
  | JArr items => UsersList <$> mapM validate_UserInfo items
  | JObj d => Some (UsersDict d)
  | _ => None
  end.

Definition validate_SystemData (v : json) : option SystemData :=
  match v with
  | JObj d =>
      n ← required validate_str d "os_name";
      o ← required validate_str d "os_version";
      c ← required validate_CPUInfo d "cpu_info";
      p ← required validate_running_processes d "running_processes";
      u ← required validate_logged_in_users d "logged_in_users";
      Some {| os_name := n; os_version := o; cpu_info := c;
              running_processes := p; logged_in_users := u |}
  | _ => None
  end.

End Validation.

(** *** [model_dump]: every declared field, in declaration order *)

Definition dump_option {A} (f : A -> json) (o : option A) : json :=
  match o with Some a => f a | None => JNull end.

Definition dump_CPUInfo (c : CPUInfo) : json :=
  JObj [("physical_cores", dump_option JInt (physical_cores c));
        ("total_cores", dump_option JInt (total_cores c));
        ("frequency",
          dump_option (fun f => match f with inl q => JFloat q | inr s => JStr s end)
                      (frequency c));
        ("usage_percent", dump_option JFloat (usage_percent c));
        ("error", dump_option JStr (error c))].

Definition dump_ProcessInfo (p : ProcessInfo) : json :=
  JObj [("pid", JInt (pid p)); ("name", JStr (name p));
        ("username", dump_option JStr (username p))].

Definition dump_UserInfo (u : UserInfo) : json :=
  JObj [("user", JStr (user u)); ("terminal", dump_option JStr (terminal u))].

Definition dump_process_item (i : process_item) : json :=
  match i with
  | AsProcessInfo p => dump_ProcessInfo p
  | AsDict d => JObj d
  end.

Definition dump_users (u : users_value) : json :=
  match u with
  | UsersList l => JArr (dump_UserInfo <$> l)
  | UsersDict d => JObj d
  end.

Definition model_dump (data : SystemData) : json :=
  JObj [("os_name", JStr (os_name data));
        ("os_version", JStr (os_version data));
        ("cpu_info", dump_CPUInfo (cpu_info data));
        ("running_processes", JArr (dump_process_item <$> running_processes data));
        ("logged_in_users", dump_users (logged_in_users data))].

(** ** Collector: storage and endpoints *)

(** The files of [DATA_DIR]: the bytes of each, by file name. Every file
    can be opened for appending; whether one can be opened for reading is
    the [Runtime]'s [open_fails]. *)
Abbreviation storage := (gmap string string).

(** [os.path.join(DATA_DIR, name)] for a file name (no slash in it). *)
Definition data_path (name : string) : string := DATA_DIR +:+ "/" +:+ name.

Inductive response : Type :=
  | OK (content : json)
  | HTTPError (status_code : Z) (detail : string)
  | RequestValidationError
  | InternalServerError.

Definition status (r : response) : Z :=
  match r with
  | OK _ => 200
  | HTTPError c _ => c
  | RequestValidationError => 422
  | InternalServerError => 500
  end.

(** What FastAPI makes of a request's body, before any dependency runs. *)
Inductive request_body : Type :=
  (** the bytes, read by [json.loads]: the content type is a JSON one, or
      there is none *)
  | Json (v : json)
  (** no bytes ([None]), or bytes under a content type that is not JSON
      (the bytes themselves) *)
  | NotJson
  (** [json.loads] raised [JSONDecodeError] *)
  | JsonInvalid
  (** reading or parsing the body raised another exception (bytes that are
      not UTF-8, for one) *)
  | ParsingError.

(** What the endpoint sees of a request: the [Authorization] header if there
    is one, the body as it was read, and [request.client.host] (the client's
    address is known). *)
Record Request : Type := {
  authorization : option string;
  body : request_body;
  client_host : string;
}.

(** The two readings of [datetime.now()] in [collect_data]. *)
Record Clock : Type := {
  today_date : string;
  now_isoformat : string;
}.

(** [open(name, "a")] then [write(line)]: the file is created when missing. *)
Definition append_text (fs : storage) (filename line : string) : storage :=
  <[filename := default EmptyString (fs !! filename) +:+ line]> fs.

Definition partition_file (client_ip today : string) : string :=
  client_ip +:+ "_" +:+ today +:+ ".jsonl".

Definition stored_record (now : string) (data : SystemData) : json :=
  JObj [("server_timestamp", JStr now); ("payload", model_dump data)].

Section Collector.

Variable rt : Runtime.

(** The body of [collect_data], entered with the validated [data]. *)
Definition collect_data (clk : Clock) (data : SystemData) (client_ip : string)
    (fs : storage) : json * storage :=
  let filename := partition_file client_ip (today_date clk) in
  let record := stored_record (now_isoformat clk) data in
  let fs' := append_text fs filename (json_dumps rt record +:+ String Text.LF EmptyString) in
  (JObj [("status", JStr "success");
         ("message", JStr ("Datos recibidos de " +:+ client_ip))], fs').

(** Whether the body was read without an error. *)
Definition body_is_read (b : request_body) : bool :=
  match b with
  | Json _ | NotJson => true
  | JsonInvalid | ParsingError => false
  end.

(** The body against [SystemData]: only a JSON value can be valid. *)
Definition validate_body (b : request_body) : option SystemData :=
  match b with
  | Json v => validate_SystemData rt v
  | _ => None
  end.

(** [POST /collect]: the body is read first, and a body that cannot be read
    is answered at once; then come the required header, the [verify_token]
    dependency (not called without the header), the body against
    [SystemData], and the handler when no error was found. *)
Definition POST_collect (clk : Clock) (req : Request) (fs : storage)
  : response * storage :=
  match body req with
  | JsonInvalid => (RequestValidationError, fs)
  | ParsingError => (HTTPError 400 "There was an error parsing the body", fs)
  | _ =>
      match authorization req with
      | None => (RequestValidationError, fs)
      | Some header =>
          match verify_token header with
          | Raise (HTTPException code detail) => (HTTPError code detail, fs)
          | Raise IndexError => (InternalServerError, fs)
          | Return _ =>
              match validate_body (body req) with
              | None => (RequestValidationError, fs)
              | Some data =>
                  let '(content, fs') := collect_data clk data (client_host req) fs in
                  (OK content, fs')
              end
          end
      end
  end.

(** [glob.glob(os.path.join(DATA_DIR, pattern))], each path given by its file
    name: the names of the directory that match, names starting with a dot
    only when the pattern does. The order is the directory's. *)
Definition ishidden (s : string) : bool := Text.startswith "." s.

Definition glob (fs : storage) (pattern : string) : list string :=
  filter (fun n => (ishidden pattern || negb (ishidden n)) && fnmatch rt n pattern = true)
         (elements (dom fs)).

Definition search_pattern (ip_address : string) : string :=
  ip_address +:+ "_*.jsonl".

(** Iterating over a file opened with [encoding="utf-8"]: the lines it
    gives, and whether it gets to the end ([false]: [UnicodeDecodeError] is
    raised after these lines). *)
Definition iterate (content : string) : list string * bool :=
  if Text.utf8_valid content then (Text.readlines content, true)
  else (lines_before_decode_error rt content, false).

(** The loop over the lines of one open file: each non-blank line is parsed
    and appended to [all_records]; when [json.loads] raises, the loop is
    left ([false]) with [all_records] as it is by then. *)
Fixpoint read_lines (lines : list string) (all_records : list json)
  : list json * bool :=
  match lines with
  | [] => (all_records, true)
  | line :: rest =>
      if Text.nonblank line then
        match json_loads rt line with
        | Some record => read_lines rest (all_records ++ [record])
        | None => (all_records, false)
        end
      else read_lines rest all_records
  end.

(** The loop over the files, each in its own [try]: a file that cannot be
    opened, is not there any more, stops decoding or has a line that does
    not parse leaves [all_records] as it is by then, and the next file is
    read. *)
Fixpoint read_files (fs : storage) (files : list string) (all_records : list json)
  : list json :=
  match files with
  | [] => all_records
  | file_path :: rest =>
      if open_fails rt file_path then read_files fs rest all_records
      else
        match fs !! file_path with
        | Some content =>
            read_files fs rest (fst (read_lines (fst (iterate content)) all_records))
        | None => read_files fs rest all_records
        end
  end.

(** [sorted(matching_files, reverse=True)]: the files are compared as the
    paths [glob] returns. *)
Definition path_ge (a b : string) : Prop :=
  Text.leb (data_path b) (data_path a) = true.

#[global] Instance path_ge_dec a b : Decision (path_ge a b).
Proof. unfold path_ge. apply _. Defined.

Definition sorted_reverse (files : list string) : list string :=
  merge_sort path_ge files.

Definition query_data (fs : storage) (ip_address : string) : result (list json) :=
  let matching_files := glob fs (search_pattern ip_address) in
  match matching_files with
  | [] => Raise (HTTPException 404
                   ("No se encontraron datos para la IP: " +:+ ip_address))
  | _ => Return (read_files fs (sorted_reverse matching_files) [])
  end.

(** [GET /query/{ip_address}]: the handler's return value goes through its
    declared response model [list[dict[str, Any]]]. *)
Definition GET_query (fs : storage) (ip_address : string) : response :=
  match query_data fs ip_address with
  | Raise (HTTPException code detail) => HTTPError code detail
  | Raise IndexError => InternalServerError
  | Return all_records =>
      if forallb is_dict all_records then OK (JArr all_records)
      else InternalServerError
  end.

End Collector.

(** ** Describing what a query reads *)

Section Reading.

Variable rt : Runtime.

Definition file_text (fs : storage) (file : string) : string :=
  default EmptyString (fs !! file).

(** The lines the loop gets from a file: none when it cannot be opened, the
    lines of its text when it decodes, those before the decoding error
    otherwise. *)
Definition file_lines (fs : storage) (file : string) : list string :=
  if open_fails rt file then [] else fst (iterate rt (file_text fs file)).

(** Every record of a file: its non-blank lines, parsed, in line order. *)
Definition all_records (lines : list string) : list json :=
  omap (json_loads rt) (filter (fun l => Text.nonblank l = true) lines).

(** The records of the lines that come before the first line that does not
    parse (all of them when every line parses). *)
Fixpoint records_before_error (lines : list string) : list json :=
  match lines with
  | [] => []
  | line :: rest =>
      if Text.nonblank line then
        match json_loads rt line with
        | Some record => record :: records_before_error rest
        | None => []
        end
      else records_before_error rest
  end.

(** A line the loop gets past: blank, or accepted by [json.loads]. *)
Definition parses (line : string) : Prop :=
  Text.nonblank line = true -> is_Some (json_loads rt line).

(** A line on which [json.loads] raises. *)
Definition unparseable (line : string) : Prop :=
  Text.nonblank line = true /\ json_loads rt line = None.

(** A line that holds a record: blank, or a JSON object. *)
Definition record_line (line : string) : Prop :=
  Text.nonblank line = true -> is_dict <$> json_loads rt line = Some true.

(** A line that, if it parses at all, holds a JSON object. *)
Definition object_if_parsed (line : string) : Prop :=
  Text.nonblank line = true -> is_dict <$> json_loads rt line <> Some false.

#[global] Instance parses_dec line : Decision (parses line).
Proof. unfold parses. apply _. Defined.

#[global] Instance unparseable_dec line : Decision (unparseable line).
Proof. unfold unparseable. apply _. Defined.

#[global] Instance record_line_dec line : Decision (record_line line).
Proof. unfold record_line. apply _. Defined.

#[global] Instance object_if_parsed_dec line : Decision (object_if_parsed line).
Proof. unfold object_if_parsed. apply _. Defined.

(** The files a query for [ip_address] opens, in the order it opens them. *)
Definition files_read (fs : storage) (ip_address : string) : list string :=
  sorted_reverse (glob rt fs (search_pattern ip_address)).

(** A file the loop reads to its end: it can be opened and is UTF-8. *)
Definition readable (fs : storage) (file : string) : Prop :=
  open_fails rt file = false /\ Text.utf8_valid (file_text fs file) = true.

#[global] Instance readable_dec fs file : Decision (readable fs file).
Proof. unfold readable. apply _. Defined.

(** Every matching file can be read and holds records only. *)
Definition well_formed (fs : storage) (ip_address : string) : Prop :=
  forall file, file ∈ glob rt fs (search_pattern ip_address) ->
    readable fs file /\ Forall record_line (Text.readlines (file_text fs file)).

(** No line of a matching file parses to something that is not an object. *)
Definition objects_only (fs : storage) (ip_address : string) : Prop :=
  forall file, file ∈ glob rt fs (search_pattern ip_address) ->
    Forall object_if_parsed (file_lines fs file).

End Reading.

(** ** A reference runtime

    An executable [Runtime], used to run the definitions on concrete inputs.
    It follows CPython and pydantic on the values the model has: [dumps]
    writes what [json.dumps] writes by default ([", "] and [": "] between
    items, every character outside the printable ASCII range as a [\u]
    escape, a [float] by its shortest [repr]); [loads] reads the JSON
    grammar as [json.loads] does (a repeated key keeps its last value, a
    number with a fraction or an exponent is the nearest [float]), and
    refuses what the model has no value for ([NaN], [Infinity], a number
    beyond the range of [float]); [fnmatch] matches as
    [fnmatch.fnmatchcase] does; files are read in blocks of 8192 bytes and
    every file can be opened. *)

Module Ref.

Definition ch (n : nat) : ascii := ascii_of_nat n.
Definition code (c : ascii) : nat := nat_of_ascii c.
Definition byte (c : ascii) : Z := Z.of_nat (nat_of_ascii c).
Definition chr (n : Z) : ascii := ascii_of_nat (Z.to_nat n).
Definition is_digit (c : ascii) : bool := ((48 <=? code c) && (code c <=? 57))%nat.
Definition digit_value (c : ascii) : Z := Z.of_nat (code c - 48).

(** *** Characters *)

(** The first character of a text, as a code point, and the text after it.
    A byte that does not start a character counts as one. *)
Definition next_char (s : string) : option (Z * string) :=
  match s with
  | EmptyString => None
  | String a r =>
      let x := byte a in
      if (x <? 192) || (247 <? x) then Some (x, r)
      else
        match r with
        | String b r2 =>
            if x <? 224 then Some ((x - 192) * 64 + (byte b - 128), r2)
            else
              match r2 with
              | String c r3 =>
                  if x <? 240 then
                    Some ((x - 224) * 4096 + (byte b - 128) * 64 + (byte c - 128), r3)
                  else
                    match r3 with
                    | String d r4 =>
                        Some ((x - 240) * 262144 + (byte b - 128) * 4096
                              + (byte c - 128) * 64 + (byte d - 128), r4)
                    | EmptyString => Some (x, r)
                    end
              | EmptyString => Some (x, r)
              end
        | EmptyString => Some (x, r)
        end
  end.

(** The code points of a text. *)
Fixpoint decode (s : string) : list Z :=
  match s with
  | EmptyString => []
  | String a r =>
      let x := byte a in
      if (x <? 192) || (247 <? x) then x :: decode r
      else
        match r with
        | String b r2 =>
            if x <? 224 then ((x - 192) * 64 + (byte b - 128)) :: decode r2
            else
              match r2 with
              | String c r3 =>
                  if x <? 240 then
                    ((x - 224) * 4096 + (byte b - 128) * 64 + (byte c - 128)) :: decode r3
                  else
                    match r3 with
                    | String d r4 =>
                        ((x - 240) * 262144 + (byte b - 128) * 4096
                         + (byte c - 128) * 64 + (byte d - 128)) :: decode r4
                    | EmptyString => x :: decode r
                    end
              | EmptyString => x :: decode r
              end
        | EmptyString => [x]
        end
  end.

(** The bytes of a code point (a surrogate is written like any other
    character of three bytes). *)
Definition encode (cp : Z) : string :=
  if cp <? 128 then String (chr cp) EmptyString
  else if cp <? 2048 then
    String (chr (192 + cp / 64)) (String (chr (128 + cp mod 64)) EmptyString)
  else if cp <? 65536 then
    String (chr (224 + cp / 4096))
      (String (chr (128 + (cp / 64) mod 64)) (String (chr (128 + cp mod 64)) EmptyString))
  else
    String (chr (240 + cp / 262144))
      (String (chr (128 + (cp / 4096) mod 64))
         (String (chr (128 + (cp / 64) mod 64))
            (String (chr (128 + cp mod 64)) EmptyString))).

(** *** Numbers *)

Fixpoint pos_digits (fuel : nat) (n : Z) (acc : string) : string :=
  match fuel with
  | O => acc
  | S fuel =>
      let acc := String (ch (48 + Z.to_nat (n mod 10))) acc in
      if n / 10 =? 0 then acc else pos_digits fuel (n / 10) acc
  end.

Definition write_nat (n : Z) : string :=
  pos_digits (S (Z.to_nat (Z.log2 n))) n EmptyString.

Definition write_int (n : Z) : string :=
  if n <? 0 then String "-" (write_nat (- n)) else write_nat n.

Definition pow2 (e : Z) : Q :=
  if 0 <=? e then inject_Z (2 ^ e) else Qmake 1 (Z.to_pos (2 ^ (- e))).

Definition pow10 (e : Z) : Q :=
  if 0 <=? e then inject_Z (10 ^ e) else Qmake 1 (Z.to_pos (10 ^ (- e))).

Definition floor (q : Q) : Z := Qnum q / Zpos (Qden q).

Definition Qltb (a b : Q) : bool := negb (Qle_bool b a).

Definition absolute (q : Q) : Q := Qmake (Z.abs (Qnum q)) (Qden q).

Definition round_half_even (q : Q) : Z :=
  let f := floor q in
  let r := Qred (q - inject_Z f) in
  if Qltb r (1 # 2) then f
  else if Qltb (1 # 2) r then f + 1
  else if Z.even f then f else f + 1.

(** A [float] above zero, as [m * 2^u] with [m] below [2^53]: the nearest to
    a rational above zero, ties to the even [m]; [None] beyond the range. *)
Definition nearest_float (q : Q) : option (Z * Z) :=
  let e0 := Z.log2 (Qnum q) - Z.log2 (Zpos (Qden q)) in
  let e2 := if Qltb q (pow2 e0) then e0 - 1 else e0 in
  let u := Z.max (e2 - 52) (-1074) in
  let m := round_half_even (Qred (q / pow2 u)) in
  let '(m, u) := if m =? 2 ^ 53 then (2 ^ 52, u + 1) else (m, u) in
  if 971 <? u then None else Some (m, u).

(** [float(q)] for a rational: the nearest [float]. *)
Definition to_float (q : Q) : option Q :=
  if Qnum q =? 0 then Some 0%Q
  else
    '(m, u) ← nearest_float (absolute q);
    Some (Qred ((if Qnum q <? 0 then -1 else 1) * inject_Z m * pow2 u)%Q).

(** The shortest decimal that [float] reads back as [m * 2^u], as digits
    and the power of ten of the last one; the closest to the value, when
    several have that length. *)
Fixpoint shortest (fuel : nat) (n : Z) (v lo hi : Q) (inclusive : bool) (k : Z)
  : Z * Z :=
  let s := pow10 (k - n + 1) in
  let c1 := floor (Qred (v / s)) in
  let inside (x : Q) :=
    if inclusive then Qle_bool lo x && Qle_bool x hi else Qltb lo x && Qltb x hi in
  let below := (inject_Z c1 * s)%Q in
  let above := (inject_Z (c1 + 1) * s)%Q in
  let pick :=
    match inside below, inside above with
    | true, true =>
        if Qle_bool (Qred (v - below)) (Qred (above - v)) then Some c1 else Some (c1 + 1)
    | true, false => Some c1
    | false, true => Some (c1 + 1)
    | false, false => None
    end in
  match pick, fuel with
  | Some c, _ => (c, k - n + 1)
  | None, O => (c1, k - n + 1)
  | None, S fuel => shortest fuel (n + 1) v lo hi inclusive k
  end.

(** Digits without zeros at the end. *)
Fixpoint strip_zeros (fuel : nat) (c p : Z) : Z * Z :=
  match fuel with
  | O => (c, p)
  | S fuel => if (c mod 10 =? 0) && negb (c =? 0) then strip_zeros fuel (c / 10) (p + 1)
              else (c, p)
  end.

Definition repr_digits (m u : Z) : Z * Z :=
  let v := (inject_Z m * pow2 u)%Q in
  let half := pow2 (u - 1) in
  let lower := if (m =? 2 ^ 52) && (-1074 <? u) then pow2 (u - 2) else half in
  let lo := Qred (v - lower) in
  let hi := Qred (v + half) in
  (* the power of ten of the first digit *)
  let e2 := Z.log2 m + u in
  let k0 := e2 * 30103 / 100000 in
  let k := if Qltb v (pow10 k0) then k0 - 1
           else if Qle_bool (pow10 (k0 + 1)) v then k0 + 1 else k0 in
  let '(c, p) := shortest 17 1 (Qred v) lo hi (Z.even m) k in
  strip_zeros 20 c p.

Fixpoint zeros (n : nat) : string :=
  match n with O => EmptyString | S n => String "0" (zeros n) end.

Fixpoint take (n : nat) (s : string) : string :=
  match n, s with
  | S n, String c r => String c (take n r)
  | _, _ => EmptyString
  end.

Fixpoint drop (n : nat) (s : string) : string :=
  match n, s with
  | S n, String _ r => drop n r
  | _, _ => s
  end.

(** [repr] of the [float] whose digits these are. *)
Definition format_float (c p : Z) : string :=
  let digits := write_nat c in
  let nd := Z.of_nat (String.length digits) in
  let decpt := p + nd in
  if (decpt <=? -4) || (16 <? decpt) then
    let e := decpt - 1 in
    let mantissa :=
      match digits with
      | String d EmptyString => String d EmptyString
      | String d r => String d (String "." r)
      | EmptyString => EmptyString
      end in
    let ex := write_nat (Z.abs e) in
    mantissa +:+ (if e <? 0 then "e-" else "e+") +:+
    (if Z.abs e <? 10 then String "0" ex else ex)
  else if decpt <=? 0 then "0." +:+ zeros (Z.to_nat (- decpt)) +:+ digits
  else if nd <=? decpt then digits +:+ zeros (Z.to_nat (decpt - nd)) +:+ ".0"
  else take (Z.to_nat decpt) digits +:+ "." +:+ drop (Z.to_nat decpt) digits.

(** [repr(float)], of the nearest [float] when the rational is none; beyond
    the range the way [repr] writes the infinities. *)
Definition write_float (q : Q) : string :=
  if Qnum q =? 0 then "0.0"
  else
    (if Qnum q <? 0 then "-" else EmptyString) +:+
    match nearest_float (absolute q) with
    | Some (m, u) => let '(c, p) := repr_digits m u in format_float c p
    | None => "inf"
    end.

(** *** Writing *)

Definition hex_digit (n : Z) : ascii :=
  if n <? 10 then chr (48 + n) else chr (87 + n).

Definition escape (cp : Z) : string :=
  "\u" +:+
  String (hex_digit (cp / 4096))
    (String (hex_digit ((cp / 256) mod 16))
       (String (hex_digit ((cp / 16) mod 16))
          (String (hex_digit (cp mod 16)) EmptyString))).

Definition write_char (cp : Z) : string :=
  if cp =? 34 then String (ch 92) (String (ch 34) EmptyString)
  else if cp =? 92 then "\\"
  else if cp =? 10 then "\n"
  else if cp =? 13 then "\r"
  else if cp =? 9 then "\t"
  else if cp =? 8 then "\b"
  else if cp =? 12 then "\f"
  else if (cp <? 32) || (126 <? cp) then
    if cp <? 65536 then escape cp
    else escape (55296 + (cp - 65536) / 1024) +:+ escape (56320 + (cp - 65536) mod 1024)
  else String (chr cp) EmptyString.

Definition write_str (s : string) : string :=
  String (ch 34) (foldr (fun cp acc => write_char cp +:+ acc) EmptyString (decode s))
  +:+ String (ch 34) EmptyString.

Fixpoint dumps (v : json) : string :=
  match v with
  | JNull => "null"
  | JBool true => "true"
  | JBool false => "false"
  | JInt n => write_int n
  | JFloat q => write_float q
  | JStr s => write_str s
  | JArr items =>
      "[" +:+
      (fix join (l : list json) : string :=
         match l with
         | [] => EmptyString
         | [x] => dumps x
         | x :: r => dumps x +:+ ", " +:+ join r
         end) items +:+ "]"
  | JObj members =>
      "{" +:+
      (fix join (l : dict) : string :=
         match l with
         | [] => EmptyString
         | [kv] => write_str (fst kv) +:+ ": " +:+ dumps (snd kv)
         | kv :: r => write_str (fst kv) +:+ ": " +:+ dumps (snd kv) +:+ ", " +:+ join r
         end) members +:+ "}"
  end.

(** *** Reading *)

Definition is_ws (c : ascii) : bool :=
  let n := code c in ((n =? 32) || (n =? 9) || (n =? 10) || (n =? 13))%nat.

Fixpoint skip_ws (s : string) : string :=
  match s with
  | String c r => if is_ws c then skip_ws r else s
  | EmptyString => s
  end.

(** [s] without the prefix [lit] *)
Fixpoint expect (lit s : string) : option string :=
  match lit, s with
  | EmptyString, _ => Some s
  | String a lit', String b s' => if Ascii.eqb a b then expect lit' s' else None
  | String _ _, EmptyString => None
  end.

Definition hex_value (c : ascii) : option Z :=
  let n := byte c in
  if is_digit c then Some (n - 48)
  else if (97 <=? n) && (n <=? 102) then Some (n - 87)
  else if (65 <=? n) && (n <=? 70) then Some (n - 55)
  else None.

Definition hex4 (h1 h2 h3 h4 : ascii) : option Z :=
  a ← hex_value h1; b ← hex_value h2; c ← hex_value h3; d ← hex_value h4;
  Some (a * 4096 + b * 256 + c * 16 + d).

(** The characters of a string literal after its opening quote. A [\u]
    escape of a high surrogate followed by one of a low surrogate is one
    character. *)
Fixpoint read_chars (s : string) : option (string * string) :=
  match s with
  | EmptyString => None
  | String c r =>
      if (code c =? 34)%nat then Some (EmptyString, r)
      else if (code c =? 92)%nat then
        match r with
        | String e r1 =>
            let simple (x : nat) :=
              '(str, rest) ← read_chars r1; Some (String (ch x) str, rest) in
            if (code e =? 34)%nat then simple 34%nat
            else if (code e =? 92)%nat then simple 92%nat
            else if (code e =? 47)%nat then simple 47%nat
            else if (code e =? 110)%nat then simple 10%nat
            else if (code e =? 114)%nat then simple 13%nat
            else if (code e =? 116)%nat then simple 9%nat
            else if (code e =? 98)%nat then simple 8%nat
            else if (code e =? 102)%nat then simple 12%nat
            else if (code e =? 117)%nat then
              match r1 with
              | String h1 (String h2 (String h3 (String h4 r2))) =>
                  hi ← hex4 h1 h2 h3 h4;
                  let alone := '(str, rest) ← read_chars r2; Some (encode hi +:+ str, rest) in
                  if (55296 <=? hi) && (hi <=? 56319) then
                    match r2 with
                    | String b1 (String b2 r3) =>
                        if ((code b1 =? 92) && (code b2 =? 117))%nat then
                          match r3 with
                          | String g1 (String g2 (String g3 (String g4 r4))) =>
                              lo ← hex4 g1 g2 g3 g4;
                              if (56320 <=? lo) && (lo <=? 57343) then
                                '(str, rest) ← read_chars r4;
                                Some (encode (65536 + (hi - 55296) * 1024 + (lo - 56320))
                                      +:+ str, rest)
                              else alone
                          | _ => None
                          end
                        else alone
                    | _ => alone
                    end
                  else alone
              | _ => None
              end
            else None
        | EmptyString => None
        end
      else if (code c <? 32)%nat then None
      else '(str, rest) ← read_chars r; Some (String c str, rest)
  end.

(** Leading digits: their value, how many, and what follows. *)
Fixpoint read_digits (s : string) (acc : Z) (count : nat) : Z * nat * string :=
  match s with
  | String c r =>
      if is_digit c then read_digits r (acc * 10 + digit_value c) (S count)
      else (acc, count, s)
  | EmptyString => (acc, count, s)
  end.

Definition read_exponent (s : string) : option (Z * string) :=
  match s with
  | String c r =>
      if ((code c =? 101) || (code c =? 69))%nat then
        let '(sign, r) :=
          match r with
          | String c' r' =>
              if (code c' =? 45)%nat then (-1, r')
              else if (code c' =? 43)%nat then (1, r')
              else (1, r)
          | EmptyString => (1, r)
          end in
        let '(e, k, rest) := read_digits r 0 0 in
        if (k =? 0)%nat then None else Some (sign * e, rest)
      else Some (0, s)
  | EmptyString => Some (0, s)
  end.

(** A number of the JSON grammar: an [int], or with a fraction or an
    exponent the [float] nearest to it. *)
Definition read_number (s : string) : option (json * string) :=
  let '(sign, s1) :=
    match s with
    | String c r => if (code c =? 45)%nat then (-1, r) else (1, s)
    | EmptyString => (1, s)
    end in
  let '(ip, k, s2) := read_digits s1 0 0 in
  if (k =? 0)%nat then None
  else if ((1 <? k)%nat && bool_decide (expect "0" s1 <> None)) then None
  else
    match s2 with
    | String c r =>
        if (code c =? 46)%nat then
          let '(fp, kf, s3) := read_digits r 0 0 in
          if (kf =? 0)%nat then None
          else
            '(e, rest) ← read_exponent s3;
            let fraction := Qmake fp (Z.to_pos (10 ^ Z.of_nat kf)) in
            f ← to_float (Qred (inject_Z sign * (inject_Z ip + fraction) * pow10 e)%Q);
            Some (JFloat f, rest)
        else if ((code c =? 101) || (code c =? 69))%nat then
          '(e, rest) ← read_exponent s2;
          f ← to_float (Qred (inject_Z (sign * ip) * pow10 e)%Q);
          Some (JFloat f, rest)
        else Some (JInt (sign * ip), s2)
    | EmptyString => Some (JInt (sign * ip), s2)
    end.

(** [d[k] = v] *)
Fixpoint dict_set (k : string) (v : json) (d : dict) : dict :=
  match d with
  | [] => [(k, v)]
  | (k', v') :: r => if String.eqb k' k then (k', v) :: r else (k', v') :: dict_set k v r
  end.

(** The items of an array after the first value's position. *)
Fixpoint read_items (value : string -> option (json * string)) (fuel : nat)
    (s : string) : option (list json * string) :=
  match fuel with
  | O => None
  | S fuel =>
      '(v, r) ← value s;
      match skip_ws r with
      | String c r' =>
          if (code c =? 44)%nat then
            '(vs, rest) ← read_items value fuel r'; Some (v :: vs, rest)
          else if (code c =? 93)%nat then Some ([v], r')
          else None
      | EmptyString => None
      end
  end.

Fixpoint read_members (value : string -> option (json * string)) (fuel : nat)
    (s : string) (acc : dict) : option (dict * string) :=
  match fuel with
  | O => None
  | S fuel =>
      match skip_ws s with
      | String q r0 =>
          if (code q =? 34)%nat then
            '(k, r1) ← read_chars r0;
            match skip_ws r1 with
            | String c r2 =>
                if (code c =? 58)%nat then
                  '(v, r3) ← value r2;
                  let acc := dict_set k v acc in
                  match skip_ws r3 with
                  | String c' r4 =>
                      if (code c' =? 44)%nat then read_members value fuel r4 acc
                      else if (code c' =? 125)%nat then Some (acc, r4)
                      else None
                  | EmptyString => None
                  end
                else None
            | EmptyString => None
            end
          else None
      | EmptyString => None
      end
  end.

Fixpoint read_value (fuel : nat) (s : string) : option (json * string) :=
  match fuel with
  | O => None
  | S fuel =>
      match skip_ws s with
      | EmptyString => None
      | String c r =>
          let n := code c in
          if (n =? 110)%nat then rest ← expect "ull" r; Some (JNull, rest)
          else if (n =? 116)%nat then rest ← expect "rue" r; Some (JBool true, rest)
          else if (n =? 102)%nat then rest ← expect "alse" r; Some (JBool false, rest)
          else if (n =? 34)%nat then
            '(str, rest) ← read_chars r; Some (JStr str, rest)
          else if (n =? 91)%nat then
            match skip_ws r with
            | String c' r' =>
                if (code c' =? 93)%nat then Some (JArr [], r')
                else '(vs, rest) ← read_items (read_value fuel) (String.length r) r;
                     Some (JArr vs, rest)
            | EmptyString => None
            end
          else if (n =? 123)%nat then
            match skip_ws r with
            | String c' r' =>
                if (code c' =? 125)%nat then Some (JObj [], r')
                else '(ms, rest) ← read_members (read_value fuel) (String.length r) r [];
                     Some (JObj ms, rest)
            | EmptyString => None
            end
          else read_number (String c r)
      end
  end.

Definition loads (s : string) : option json :=
  '(v, rest) ← read_value (S (String.length s)) s;
  match skip_ws rest with
  | EmptyString => Some v
  | _ => None
  end.

(** *** Coercions *)

(** Digits, with single underscores between them: their value and how many
    digits there are. *)
Fixpoint read_grouped (s : string) (acc : Z) (count : nat) : Z * nat * string :=
  match s with
  | String c r =>
      if is_digit c then read_grouped r (acc * 10 + digit_value c) (S count)
      else if ((code c =? 95) && (0 <? count))%nat then
        match r with
        | String c' _ => if is_digit c' then read_grouped r acc count else (acc, count, s)
        | EmptyString => (acc, count, s)
        end
      else (acc, count, s)
  | EmptyString => (acc, count, s)
  end.

Definition read_sign (s : string) : Z * string :=
  match s with
  | String c r =>
      if (code c =? 45)%nat then (-1, r)
      else if (code c =? 43)%nat then (1, r)
      else (1, s)
  | EmptyString => (1, s)
  end.

Fixpoint only_zeros (s : string) : bool :=
  match s with
  | EmptyString => true
  | String c r => (code c =? 48)%nat && only_zeros r
  end.

(** A text without the white space around it. *)
Fixpoint trim_left (s : string) : string :=
  match s with
  | String c r => if Text.isspace c then trim_left r else s
  | EmptyString => s
  end.

Fixpoint trim_right (s : string) : string :=
  match s with
  | EmptyString => EmptyString
  | String c r =>
      match trim_right r with
      | EmptyString => if Text.isspace c then EmptyString else String c EmptyString
      | r' => String c r'
      end
  end.

Definition trim (s : string) : string := trim_right (trim_left s).

(** A [str] as an [int]: a sign, digits (single underscores allowed between
    them), and nothing else but zeros after a point. *)
Definition int_of_str (s : string) : option Z :=
  let '(sign, s1) := read_sign (trim s) in
  let '(n, k, s2) := read_grouped s1 0 0 in
  if (k =? 0)%nat then None
  else
    match s2 with
    | EmptyString => Some (sign * n)
    | String c r => if (code c =? 46)%nat && only_zeros r then Some (sign * n) else None
    end.

(** A [str] as a [float]: a sign, digits with or without a point, an
    exponent; the nearest [float]. *)
Definition float_of_str (s : string) : option Q :=
  let '(sign, s1) := read_sign (trim s) in
  let '(ip, k, s2) := read_grouped s1 0 0 in
  let '(fp, kf, s3) :=
    match s2 with
    | String c r => if (code c =? 46)%nat then read_grouped r 0 0 else (0, O, s2)
    | EmptyString => (0, O, s2)
    end in
  if ((k =? 0) && (kf =? 0))%nat then None
  else
    match read_exponent s3 with
    | Some (e, EmptyString) =>
        to_float (Qred (inject_Z sign
                        * (inject_Z ip + Qmake fp (Z.to_pos (10 ^ Z.of_nat kf)))
                        * pow10 e)%Q)
    | _ => None
    end.

(** A [float] as an [int]: an integral value strictly between [-2^63] and
    [2^63]. *)
Definition int_of_float (q : Q) : option Z :=
  let n := floor q in
  if Qeq_bool q (inject_Z n) && (- 2 ^ 63 <? n) && (n <? 2 ^ 63) then Some n else None.

(** An [int] as a [float]: the nearest one, none beyond the range. *)
Definition float_of_int (n : Z) : option Q := to_float (inject_Z n).

(** *** Matching file names *)

(** The bracket expression after a ["["]: whether it is negated, its
    characters, and the pattern after its closing ["]"]; [None] when there is
    no closing bracket (the ["["] is then an ordinary character). *)
Fixpoint until_close (s : string) : option (string * string) :=
  match s with
  | EmptyString => None
  | String c r =>
      if (code c =? 93)%nat then Some (EmptyString, r)
      else '(stuff, rest) ← until_close r; Some (String c stuff, rest)
  end.

Definition read_bracket (s : string) : option (bool * string * string) :=
  let '(negated, s1) :=
    match s with
    | String c r => if (code c =? 33)%nat then (true, r) else (false, s)
    | EmptyString => (false, s)
    end in
  match s1 with
  | String c r =>
      if (code c =? 93)%nat then
        '(stuff, rest) ← until_close r; Some (negated, String c stuff, rest)
      else '(stuff, rest) ← until_close s1; Some (negated, stuff, rest)
  | EmptyString => None
  end.

(** Membership in the characters of a bracket expression: [x-y] is a range. *)
Fixpoint in_class (c : Z) (stuff : list Z) : bool :=
  match stuff with
  | [] => false
  | lo :: rest =>
      match rest with
      | dash :: hi :: r =>
          if dash =? 45 then ((lo <=? c) && (c <=? hi)) || in_class c r
          else (lo =? c) || in_class c rest
      | _ => (lo =? c) || in_class c rest
      end
  end.

(** Whether a text starts where a character starts. *)
Definition at_boundary (n : string) : bool :=
  match n with
  | String c _ => negb (Text.continuation c)
  | EmptyString => true
  end.

(** A star takes any characters, a question mark one, a bracket expression
    one of its characters; any other byte of the pattern is itself. *)
Fixpoint wild (fuel : nat) (pattern : string) {struct fuel} : string -> bool :=
  match fuel with
  | O => fun _ => false
  | S fuel =>
      match pattern with
      | EmptyString => fun n => bool_decide (n = EmptyString)
      | String p pattern' =>
          if (code p =? 42)%nat then
            fix star (n : string) {struct n} : bool :=
              (at_boundary n && wild fuel pattern' n) ||
              match n with String _ n' => star n' | EmptyString => false end
          else if (code p =? 63)%nat then
            fun n => match next_char n with
                     | Some (_, n') => wild fuel pattern' n'
                     | None => false
                     end
          else
            let literal n :=
              match n with
              | String c n' => Ascii.eqb p c && wild fuel pattern' n'
              | EmptyString => false
              end in
            if (code p =? 91)%nat then
              match read_bracket pattern' with
              | Some (negated, stuff, rest) =>
                  fun n => match next_char n with
                           | Some (c, n') =>
                               xorb negated (in_class c (decode stuff))
                               && wild fuel rest n'
                           | None => false
                           end
              | None => literal
              end
            else literal
      end
  end.

Definition fnmatch (name pattern : string) : bool :=
  wild (S (String.length pattern)) pattern name.

(** No character of [s] is special in a pattern ([glob.has_magic] is false). *)
Fixpoint no_magic (s : string) : bool :=
  match s with
  | EmptyString => true
  | String c r =>
      negb ((code c =? 42) || (code c =? 63) || (code c =? 91))%nat && no_magic r
  end.

(** *** Reading a file that does not decode *)

(** How far a UTF-8 decoder gets: the number of bytes of the well-formed
    characters in front, and the position of the byte it refuses (the length
    of the text when its last character is cut short). *)
Fixpoint decoder_stops (s : string) (pos : Z) : Z * Z :=
  match s with
  | EmptyString => (pos, pos)
  | String a r =>
      let x := byte a in
      if x <? 128 then decoder_stops r (pos + 1)
      else if (x <? 194) || (244 <? x) then (pos, pos)
      else
        match r with
        | EmptyString => (pos, pos + 1)
        | String b r2 =>
            if x <? 224 then
              if Text.continuation b then decoder_stops r2 (pos + 2) else (pos, pos + 1)
            else if x <? 240 then
              if Text.second_of_three a b then
                match r2 with
                | EmptyString => (pos, pos + 2)
                | String c r3 =>
                    if Text.continuation c then decoder_stops r3 (pos + 3)
                    else (pos, pos + 2)
                end
              else (pos, pos + 1)
            else
              if Text.second_of_four a b then
                match r2 with
                | EmptyString => (pos, pos + 2)
                | String c r3 =>
                    if Text.continuation c then
                      match r3 with
                      | EmptyString => (pos, pos + 3)
                      | String d r4 =>
                          if Text.continuation d then decoder_stops r4 (pos + 4)
                          else (pos, pos + 3)
                      end
                    else (pos, pos + 2)
                end
              else (pos, pos + 1)
        end
  end.

(** The lines of a text that are known to be ended: a carriage return at
    the very end may still be the first half of a terminator. *)
Fixpoint complete_lines (cur : string) (s : string) : list string :=
  match s with
  | EmptyString => []
  | String c r =>
      if Ascii.eqb c Text.LF then
        (cur +:+ String Text.LF EmptyString) :: complete_lines EmptyString r
      else if Ascii.eqb c Text.CR then
        match r with
        | String c' r' =>
            if Ascii.eqb c' Text.LF
            then (cur +:+ String Text.LF EmptyString) :: complete_lines EmptyString r'
            else (cur +:+ String Text.LF EmptyString) :: complete_lines EmptyString r
        | EmptyString => []
        end
      else complete_lines (cur +:+ String c EmptyString) r
  end.

Definition BLOCK : Z := 8192.

(** The blocks before the one with the refused byte are decoded, up to the
    last well-formed character; a character cut short by the end of the file
    is refused after every block was read. *)
Definition lines_before_decode_error (content : string) : list string :=
  let '(good, bad) := decoder_stops content 0 in
  let decoded :=
    if bad <? Z.of_nat (String.length content)
    then Z.min good (BLOCK * (bad / BLOCK)) else good in
  complete_lines EmptyString (take (Z.to_nat decoded) content).

End Ref.

Definition py : Runtime := {|
  json_dumps := Ref.dumps;
  json_loads := Ref.loads;
  fnmatch := Ref.fnmatch;
  int_of_str := Ref.int_of_str;
  float_of_str := Ref.float_of_str;
  int_of_float := Ref.int_of_float;
  float_of_int := Ref.float_of_int;
  open_fails := fun _ => false;
  lines_before_decode_error := Ref.lines_before_decode_error;
|}.

(** ** Sample data *)

Module Sample.

Definition nl : string := String Text.LF EmptyString.

(** A stored record, reduced to its time stamp and an empty payload. *)
Definition entry (stamp : string) : json :=
  JObj [("server_timestamp", JStr stamp); ("payload", JObj [])].

Definition e1 : json := entry "2024-01-01T08:00:00".
Definition e2 : json := entry "2024-01-01T08:05:00".
Definition e3 : json := entry "2024-01-02T08:00:00".
Definition e4 : json := entry "2024-01-02T08:05:00".

(** The line [collect_data] writes for a record. *)
Definition line (record : json) : string := json_dumps py record +:+ nl.

Definition garbage : string := "{not json" +:+ nl.

Definition day1 : string := "1.2.3.4_2024-01-01.jsonl".
Definition day2 : string := "1.2.3.4_2024-01-02.jsonl".
Definition other : string := "10.0.0.7_2024-01-02.jsonl".

(** Two days of one address, and a day of another address. *)
Definition fs_two_days : storage :=
  <[day1 := line e1 +:+ line e2]>
    (<[day2 := line e3 +:+ line e4]>
       (<[other := line (entry "2024-01-02T09:00:00")]> ∅)).

(** The same, with a line that is not JSON between the records of day 2. *)
Definition fs_corrupt : storage :=
  <[day2 := line e3 +:+ garbage +:+ line e4]> fs_two_days.

(** One file: a record, a line that is not JSON, two more records. *)
Definition fs_torn : storage :=
  {[ day1 := line e1 +:+ garbage +:+ line e2 +:+ line e3 ]}.

(** Files that exist and hold nothing. *)
Definition fs_empty_files : storage :=
  <[day1 := EmptyString]> (<[day2 := EmptyString]> ∅).

(** A host that answers every query. *)
Definition host : Agent.Host := {|
  Agent.cpu_count_physical := Agent.Returns (Some 4);
  Agent.cpu_count_logical := Agent.Returns (Some 8);
  Agent.cpu_freq_test := Agent.Returns (Some (2400 # 1));
  Agent.cpu_freq_read := Agent.Returns (Some (2400 # 1));
  Agent.cpu_percent := Agent.Returns (25 # 2);
  Agent.process_iter :=
    Agent.Returns [{| Agent.info_pid := 1; Agent.info_name := Some "init";
                      Agent.info_username := Some "root" |}];
  Agent.users :=
    Agent.Returns [{| Agent.session_name := "ana";
                      Agent.session_terminal := Some "tty1" |}];
  Agent.platform_system := "Linux";
  Agent.platform_version := "#1 SMP";
|}.

Definition failure (c : Agent.exception_class) (message : string)
  : Agent.exception :=
  {| Agent.exc_class := c; Agent.exc_str := message |}.

(** A host on which the three queries raise, the process listing with one of
    the psutil classes the function names. *)
Definition host_all_denied : Agent.Host := {|
  Agent.cpu_count_physical := Agent.Raises (failure (Agent.OtherException "RuntimeError") "no cpu");
  Agent.cpu_count_logical := Agent.Returns None;
  Agent.cpu_freq_test := Agent.Returns None;
  Agent.cpu_freq_read := Agent.Returns None;
  Agent.cpu_percent := Agent.Returns 0%Q;
  Agent.process_iter := Agent.Raises (failure Agent.AccessDenied "(pid=1)");
  Agent.users := Agent.Raises (failure (Agent.OtherException "OSError") "no utmp");
  Agent.platform_system := "Linux";
  Agent.platform_version := "#1 SMP";
|}.

(** The same host, the process listing failing with an [OSError]. *)
Definition host_os_error : Agent.Host := {|
  Agent.cpu_count_physical := Agent.cpu_count_physical host_all_denied;
  Agent.cpu_count_logical := Agent.cpu_count_logical host_all_denied;
  Agent.cpu_freq_test := Agent.cpu_freq_test host_all_denied;
  Agent.cpu_freq_read := Agent.cpu_freq_read host_all_denied;
  Agent.cpu_percent := Agent.cpu_percent host_all_denied;
  Agent.process_iter :=
    Agent.Raises (failure (Agent.OtherException "OSError")
                          "[Errno 24] Too many open files");
  Agent.users := Agent.users host_all_denied;
  Agent.platform_system := "Linux";
  Agent.platform_version := "#1 SMP";
|}.

(** The snapshot the agent builds on [host]. *)
Definition snapshot : json :=
  JObj [("os_name", JStr "Linux");
        ("os_version", JStr "#1 SMP");
        ("cpu_info", JObj [("physical_cores", JInt 4);
                           ("total_cores", JInt 8);
                           ("frequency", JFloat (2400 # 1));
                           ("usage_percent", JFloat (25 # 2))]);
        ("running_processes",
          JArr [JObj [("pid", JInt 1); ("name", JStr "init");
                      ("username", JStr "root")]]);
        ("logged_in_users",
          JArr [JObj [("user", JStr "ana"); ("terminal", JStr "tty1")]])].

(** The same snapshot as the collector's model holds it once validated. *)
Definition snapshot_model : SystemData :=
  {| os_name := "Linux";
     os_version := "#1 SMP";
     cpu_info := {| physical_cores := Some 4; total_cores := Some 8;
                    frequency := Some (inl (2400 # 1));
                    usage_percent := Some (25 # 2); error := None |};
     running_processes :=
       [AsProcessInfo {| pid := 1; name := "init"; username := Some "root" |}];
     logged_in_users :=
       UsersList [{| user := "ana"; terminal := Some "tty1" |}] |}.

(** The snapshot with a key the model does not declare. *)
Definition snapshot_with_hostname : json :=
  JObj (members snapshot ++ [("hostname", JStr "web-1")]).

(** A snapshot whose process list mixes a process with a dict that is
    neither a process nor an error marker, and whose users are such a dict. *)
Definition snapshot_with_strays : json :=
  JObj [("os_name", JStr "Linux");
        ("os_version", JStr "#1 SMP");
        ("cpu_info", JObj []);
        ("running_processes",
          JArr [JObj [("pid", JInt 1); ("name", JStr "init")];
                JObj [("colour", JStr "blue")]]);
        ("logged_in_users", JObj [("colour", JStr "blue")])].

Definition bearer : string := "Bearer " +:+ API_TOKEN.

Definition request (header : string) (b : json) : Request :=
  {| authorization := Some header; body := Json b; client_host := "1.2.3.4" |}.

Definition clock : Clock :=
  {| today_date := "2024-01-02"; now_isoformat := "2024-01-02T08:00:00.123456" |}.

End Sample.

(** ** Describing what validation accepts *)

Definition declared_fields : list string :=
  ["os_name"; "os_version"; "cpu_info"; "running_processes"; "logged_in_users"].

(** A sequence of JSON objects, whatever their keys. *)
Definition object_list (v : json) : Prop :=
  exists items, v = JArr items /\ Forall (fun i => is_dict i = true) items.

(** An object with a string [user] and a [terminal] that is absent, null or
    a string. *)
Definition user_entry (v : json) : Prop :=
  exists d, v = JObj d /\
    (exists s, get "user" d = Some (JStr s)) /\
    (get "terminal" d = None \/ get "terminal" d = Some JNull \/
     exists s, get "terminal" d = Some (JStr s)).

(** A sequence of user entries, or any JSON object. *)
Definition users_or_object (v : json) : Prop :=
  (exists d, v = JObj d) \/
  (exists items, v = JArr items /\ Forall user_entry items).

(** The shapes the specification gives the two fields. *)
Definition process_entry_spec (v : json) : Prop :=
  exists d, v = JObj d /\
    (exists n, get "pid" d = Some (JInt n)) /\
    (exists s, get "name" d = Some (JStr s)) /\
    (get "username" d = None \/ get "username" d = Some JNull \/
     exists s, get "username" d = Some (JStr s)).

Definition error_marker_spec (v : json) : Prop :=
  exists s, v = JObj [("error", JStr s)].

Definition running_processes_spec (v : json) : Prop :=
  (exists items, v = JArr items /\ Forall process_entry_spec items) \/
  (exists m, v = JArr [m] /\ error_marker_spec m).

Definition logged_in_users_spec (v : json) : Prop :=
  (exists items, v = JArr items /\ Forall user_entry items) \/
  error_marker_spec v.

(** ** Describing the codec on one record

    [json.dumps] writes the record in ASCII on a single non-blank line,
    which [json.loads] reads back. *)
Definition one_line_round_trip (rt : Runtime) (record : json) : Prop :=
  Text.isascii (json_dumps rt record) = true /\
  Text.lacks Text.LF (json_dumps rt record) = true /\
  Text.lacks Text.CR (json_dumps rt record) = true /\
  Text.nonblank (json_dumps rt record) = true /\
  json_loads rt (json_dumps rt record +:+ String Text.LF EmptyString) = Some record.

(** ** Sampling agent: [send_data_to_api] and [job] *)

Module Delivery.

Definition API_URL : string := "http://44.211.226.254/collect".
Definition API_TOKEN : string := "micompania_secret_token_12345".

(** The arguments of the call to [requests.post]. *)
Record PostCall : Type := {
  url : string;
  json_body : json;
  headers : list (string * string);
  timeout : Z;
}.

(** What the [try] block can raise: the error [raise_for_status] makes of a
    status, another [requests.exceptions.RequestException] (connection,
    timeout, ...), or an exception of another class. All derive from
    [Exception]. *)
Inductive send_exception : Type :=
  | StatusError (code : Z)
  | RequestFailed (qualname message : string)
  | Unexpected (qualname message : string).

(** [isinstance(e, requests.exceptions.RequestException)] *)
Definition is_request_exception (e : send_exception) : bool :=
  match e with
  | StatusError _ | RequestFailed _ _ => true
  | Unexpected _ _ => false
  end.

(** A response: its status and what [response.json()] gives or raises. *)
Record Answer : Type := {
  status_code : Z;
  decoded : json + send_exception;
}.

Inductive post_result : Type :=
  | Responds (r : Answer)
  | Fails (e : send_exception).

(** [response.raise_for_status()]: an error for the codes 400 to 599. *)
Definition raise_for_status (r : Answer) : option send_exception :=
  if (400 <=? status_code r) && (status_code r <? 600)
  then Some (StatusError (status_code r)) else None.

(** Which of its three messages [send_data_to_api] prints, and about what. *)
Inductive report : Type :=
  | Sent (acknowledgement : json)
  | ApiError (e : send_exception)
  | OtherError (e : send_exception).

Definition request_headers : list (string * string) :=
  [("Authorization", "Bearer " +:+ API_TOKEN);
   ("Content-Type", "application/json")].

(** A header's value, as the server finds it. *)
Fixpoint header_value (name : string) (hs : list (string * string)) : option string :=
  match hs with
  | [] => None
  | (n, v) :: r => if String.eqb n name then Some v else header_value name r
  end.

Section Sending.

(** The network and whatever answers on it: a state [post] acts on. *)
Context {World : Type}.
Variable post : PostCall -> World -> post_result * World.

Definition send_data_to_api (data : json) (w : World) : report * World :=
  let '(result, w') :=
    post {| url := API_URL; json_body := data; headers := request_headers;
            timeout := 15 |} w in
  let attempt : json + send_exception :=
    match result with
    | Fails e => inr e
    | Responds r =>
        match raise_for_status r with
        | Some e => inr e
        | None => decoded r
        end
    end in
  (match attempt with
   | inl acknowledgement => Sent acknowledgement
   | inr e => if is_request_exception e then ApiError e else OtherError e
   end, w').

(** [job]: nothing catches what [get_system_info] raises. *)
Definition job (h : Agent.Host) (w : World) : Agent.outcome report * World :=
  match Agent.get_system_info h with
  | Agent.Raises e => (Agent.Raises e, w)
  | Agent.Returns system_data =>
      let '(r, w') := send_data_to_api system_data w in (Agent.Returns r, w')
  end.

End Sending.

End Delivery.

(** ** Several requests in a row *)

Fixpoint POST_collect_all (rt : Runtime) (calls : list (Clock * Request))
    (fs : storage) : list response * storage :=
  match calls with
  | [] => ([], fs)
  | (clk, req) :: rest =>
      let '(r, fs1) := POST_collect rt clk req fs in
      let '(rs, fs2) := POST_collect_all rt rest fs1 in
      (r :: rs, fs2)
  end.

(** A request of one sender on one day: its time, its body, and the model
    the body validates to. *)
Definition item : Type := string * json * SystemData.

Definition item_call (header ip today : string) (i : item) : Clock * Request :=
  ({| today_date := today; now_isoformat := i.1.1 |},
   {| authorization := Some header; body := Json i.1.2; client_host := ip |}).

Definition item_record (i : item) : json := stored_record i.1.1 i.2.

Definition accepted_item (rt : Runtime) (i : item) : Prop :=
  validate_SystemData rt i.1.2 = Some i.2 /\
  one_line_round_trip rt (item_record i).

(** The text the lines of their records make, one after the other. *)
Definition written_text (rt : Runtime) (items : list item) : string :=
  foldr (fun i acc => (json_dumps rt (item_record i) +:+ String Text.LF EmptyString)
                      +:+ acc) EmptyString items.

(** ** More sample data *)

Module Sample2.

(** A record, the number 5 on a line of its own, another record. *)
Definition fs_scalar_line : storage :=
  {[ Sample.day1 := Sample.line Sample.e1 +:+ Sample.line (JInt 5)
                    +:+ Sample.line Sample.e2 ]}.

(** A no-break space (U+00A0) and an ideographic space (U+3000), in UTF-8. *)
Definition nbsp : string := String (Ref.ch 194) (String (Ref.ch 160) EmptyString).
Definition wide_space : string :=
  String (Ref.ch 227) (String (Ref.ch 128) (String (Ref.ch 128) EmptyString)).

(** Two records, and the same with, between them, an empty line, a line of
    two spaces and a line of a no-break space, a tab and an ideographic
    space. *)
Definition fs_packed : storage :=
  {[ Sample.day1 := Sample.line Sample.e1 +:+ Sample.line Sample.e2 ]}.

Definition fs_spaced : storage :=
  {[ Sample.day1 := Sample.line Sample.e1 +:+ Sample.nl +:+ "  " +:+ Sample.nl
                    +:+ nbsp +:+ String (Ref.ch 9) wide_space +:+ Sample.nl
                    +:+ Sample.line Sample.e2 ]}.

(** A byte that is no UTF-8, on a line of its own. *)
Definition stray_byte : string := String (Ref.ch 255) Sample.nl.

(** Day 1 with two records, day 2 with a record, the stray byte and another
    record. *)
Definition fs_undecodable : storage :=
  <[Sample.day2 := Sample.line Sample.e3 +:+ stray_byte +:+ Sample.line Sample.e4]>
    Sample.fs_two_days.

(** The reference runtime on a system where day 2 cannot be opened. *)
Definition py_day2_locked : Runtime := {|
  json_dumps := json_dumps py;
  json_loads := json_loads py;
  fnmatch := fnmatch py;
  int_of_str := int_of_str py;
  float_of_str := float_of_str py;
  int_of_float := int_of_float py;
  float_of_int := float_of_int py;
  open_fails := String.eqb Sample.day2;
  lines_before_decode_error := lines_before_decode_error py;
|}.

(** A refused token with a body that is not JSON, and with one that cannot
    be read. *)
Definition request_invalid_json : Request :=
  {| authorization := Some "Bearer wrongtoken"; body := JsonInvalid;
     client_host := "1.2.3.4" |}.

Definition request_unreadable : Request :=
  {| authorization := Some "Bearer wrongtoken"; body := ParsingError;
     client_host := "1.2.3.4" |}.

(** A snapshot whose one process has its [pid] as a string, and one whose
    [physical_cores] is the float [1e19]. *)
Definition snapshot_pid_as_text : json :=
  JObj [("os_name", JStr "Linux");
        ("os_version", JStr "#1 SMP");
        ("cpu_info", JObj []);
        ("running_processes", JArr [JObj [("pid", JStr "12"); ("name", JStr "a")]]);
        ("logged_in_users", JArr [])].

(** What the model keeps of the first, and the payload stored for it: the
    process entry is kept as the dict it was, its [pid] still a string. *)
Definition model_pid_as_text : SystemData :=
  {| os_name := "Linux";
     os_version := "#1 SMP";
     cpu_info := {| physical_cores := None; total_cores := None; frequency := None;
                    usage_percent := None; error := None |};
     running_processes := [AsDict [("pid", JStr "12"); ("name", JStr "a")]];
     logged_in_users := UsersList [] |}.

Definition payload_pid_as_text : json :=
  JObj [("os_name", JStr "Linux");
        ("os_version", JStr "#1 SMP");
        ("cpu_info", JObj [("physical_cores", JNull); ("total_cores", JNull);
                           ("frequency", JNull); ("usage_percent", JNull);
                           ("error", JNull)]);
        ("running_processes", JArr [JObj [("pid", JStr "12"); ("name", JStr "a")]]);
        ("logged_in_users", JArr [])].

Definition snapshot_huge_cores : json :=
  JObj [("os_name", JStr "Linux");
        ("os_version", JStr "#1 SMP");
        ("cpu_info", JObj [("physical_cores", JFloat (inject_Z (10 ^ 19)))]);
        ("running_processes", JArr []);
        ("logged_in_users", JArr [])].

(** The sample snapshot without its [os_name]. *)
Definition snapshot_without_os_name : json :=
  JObj (tail (members Sample.snapshot)).

(** Two requests of a morning. *)
Definition morning : list item :=
  [("2024-01-02T08:00:00.123456", Sample.snapshot, Sample.snapshot_model);
   ("2024-01-02T08:05:00.654321", Sample.snapshot_with_hostname,
    Sample.snapshot_model)].

(** A network that counts the calls and answers each with 200 and the body
    the collector sends on success. *)
Definition post_ok (call : Delivery.PostCall) (calls : nat)
  : Delivery.post_result * nat :=
  (Delivery.Responds
     {| Delivery.status_code := 200;
        Delivery.decoded :=
          inl (JObj [("status", JStr "success");
                     ("message", JStr "Datos recibidos de 1.2.3.4")]) |},
   S calls).

(** A network that counts the calls and answers each with 401. *)
Definition post_denied (call : Delivery.PostCall) (calls : nat)
  : Delivery.post_result * nat :=
  (Delivery.Responds
     {| Delivery.status_code := 401;
        Delivery.decoded :=
          inl (JObj [("detail", JStr "Token de autorización inválido")]) |},
   S calls).

End Sample2.

(** * Properties *)

(** Settling a decidable statement about concrete data by running it. *)
Ltac by_running := apply (bool_decide_unpack _); vm_compute; exact I.

(** ** Text *)

Section TextFacts.

Lemma startswith_app p r : Text.startswith p (p +:+ r) = true.
Proof.
  induction p as [|a p IH]; simpl; [reflexivity|].
  now rewrite Ascii.eqb_refl, IH.
Qed.

Lemma startswith_inv p s :
  Text.startswith p s = true -> exists r, s = p +:+ r.
Proof.
  revert s; induction p as [|a p IH]; intros s H; simpl in *.
  - now exists s.
  - destruct s as [|b s]; [discriminate|].
    apply andb_prop in H as [Hab Hps].
    apply Ascii.eqb_eq in Hab as ->.
    destruct (IH _ Hps) as [r ->]. now exists r.
Qed.

Lemma split_nonempty sep s : Text.split sep s <> [].
Proof.
  destruct s as [|c r]; simpl; [discriminate|].
  destruct (Ascii.eqb c sep); [discriminate|].
  destruct (Text.split sep r); discriminate.
Qed.

(** Splitting a text whose first separator comes right after [a]. *)
Lemma split_app_sep sep a r :
  Text.lacks sep a = true ->
  Text.split sep (a +:+ String sep r) = a :: Text.split sep r.
Proof.
  induction a as [|c a IH]; simpl; intros H.
  - now rewrite Ascii.eqb_refl.
  - apply andb_prop in H as [Hc Ha].
    apply negb_true_iff in Hc. rewrite Hc, (IH Ha). reflexivity.
Qed.

Lemma append_assoc (a b c : string) : (a +:+ b) +:+ c = a +:+ (b +:+ c).
Proof.
  induction a as [|x a IH]; [reflexivity|].
  change (String x ((a +:+ b) +:+ c) = String x (a +:+ (b +:+ c))).
  now rewrite IH.
Qed.

Lemma isascii_app a b :
  Text.isascii (a +:+ b) = Text.isascii a && Text.isascii b.
Proof.
  induction a as [|x a IH]; [reflexivity|].
  change (Text.isascii (String x (a +:+ b))
          = Text.isascii (String x a) && Text.isascii b).
  simpl. now rewrite IH, andb_assoc.
Qed.

(** ASCII text is UTF-8. *)
Lemma isascii_utf8_valid s : Text.isascii s = true -> Text.utf8_valid s = true.
Proof.
  induction s as [|x s IH]; [reflexivity|]. simpl.
  intros H. apply andb_prop in H as [Hx Hs]. rewrite Hx. now apply IH.
Qed.

(** No character above U+007F starts with a byte below 0x80. *)
Lemma isspace2_ascii a b : (nat_of_ascii a <? 128)%nat = true -> Text.isspace2 a b = false.
Proof.
  intros H. apply Nat.ltb_lt in H. unfold Text.isspace2.
  destruct (Nat.eqb_spec (nat_of_ascii a) 194); [lia|reflexivity].
Qed.

Lemma isspace3_ascii a b c :
  (nat_of_ascii a <? 128)%nat = true -> Text.isspace3 a b c = false.
Proof.
  intros H. apply Nat.ltb_lt in H. unfold Text.isspace3.
  destruct (Nat.eqb_spec (nat_of_ascii a) 225); [lia|].
  destruct (Nat.eqb_spec (nat_of_ascii a) 226); [lia|].
  destruct (Nat.eqb_spec (nat_of_ascii a) 227); [lia|reflexivity].
Qed.

(** On ASCII text, the first character that is no white space settles it. *)
Lemma nonblank_ascii_cons c r :
  (nat_of_ascii c <? 128)%nat = true ->
  Text.nonblank (String c r) = if Text.isspace c then Text.nonblank r else true.
Proof.
  intros Hc. simpl. destruct (Text.isspace c); [reflexivity|].
  destruct r as [|b r2]; [reflexivity|]. rewrite (isspace2_ascii c b Hc).
  destruct r2 as [|d r3]; [reflexivity|]. now rewrite (isspace3_ascii c b d Hc).
Qed.

(** What follows a non-blank ASCII text does not make it blank. *)
Lemma nonblank_ascii_app a b :
  Text.isascii a = true -> Text.nonblank a = true -> Text.nonblank (a +:+ b) = true.
Proof.
  induction a as [|x a IH]; [discriminate|].
  change (String x a +:+ b) with (String x (a +:+ b)).
  intros Ha. simpl in Ha. apply andb_prop in Ha as [Hx Ha].
  rewrite !(nonblank_ascii_cons _ _ Hx).
  destruct (Text.isspace x); [now apply IH|reflexivity].
Qed.

(** A text without line terminators, ended by a line feed, is one line. *)
Lemma lines_from_one_line cur s :
  Text.lacks Text.LF s = true -> Text.lacks Text.CR s = true ->
  Text.lines_from cur (s +:+ String Text.LF EmptyString) =
  [cur +:+ s +:+ String Text.LF EmptyString].
Proof.
  revert cur; induction s as [|c s IH]; intros cur Hlf Hcr; simpl in *.
  - reflexivity.
  - apply andb_prop in Hlf as [Hc1 Hlf]. apply andb_prop in Hcr as [Hc2 Hcr].
    apply negb_true_iff in Hc1, Hc2. rewrite Hc1, Hc2.
    rewrite (IH _ Hlf Hcr), append_assoc. reflexivity.
Qed.

End TextFacts.

Section TokenFacts.

Lemma verify_token_total authorization :
  verify_token authorization = Return tt \/
  exists detail, verify_token authorization = Raise (HTTPException 401 detail).
Proof.
  unfold verify_token.
  destruct (Text.startswith "Bearer " authorization) eqn:Hp; simpl.
  - apply startswith_inv in Hp as [r ->].
    change ("Bearer " +:+ r) with ("Bearer" +:+ String " " r).
    rewrite split_app_sep by reflexivity.
    destruct (Text.split " " r) as [|tok rest] eqn:Hs.
    { now apply split_nonempty in Hs. }
    simpl. destruct (String.eqb tok API_TOKEN); simpl; eauto.
  - eauto.
Qed.

Lemma verify_token_accepts_inv authorization :
  verify_token authorization = Return tt ->
  Text.startswith "Bearer " authorization = true /\
  Text.split " " authorization !! 1%nat = Some API_TOKEN.
Proof.
  unfold verify_token.
  destruct (Text.startswith "Bearer " authorization); simpl; [|discriminate].
  destruct (Text.split " " authorization !! 1%nat) as [tok|]; [|discriminate].
  destruct (String.eqb tok API_TOKEN) eqn:Htok; simpl; [|discriminate].
  apply String.eqb_eq in Htok as ->. auto.
Qed.

End TokenFacts.

(** C10. A header ["Bearer " + token + " " + anything] is authorised, and
    [verify_token] is total: on every header it either authorises or raises
    the 401 error; the index into the split header is never out of range. *)
Theorem verify_token_trailing_and_total :
  (forall trailing : string,
      verify_token ("Bearer " +:+ API_TOKEN +:+ " " +:+ trailing) = Return tt) /\
  (forall authorization : string,
      verify_token authorization = Return tt \/
      exists detail, verify_token authorization = Raise (HTTPException 401 detail)).
Proof.
  split.
  - intros trailing. unfold verify_token.
    change ("Bearer " +:+ API_TOKEN +:+ " " +:+ trailing)
      with ("Bearer " +:+ (API_TOKEN +:+ " " +:+ trailing)) at 1.
    rewrite startswith_app. simpl negb. cbv iota.
    change ("Bearer " +:+ API_TOKEN +:+ " " +:+ trailing)
      with ("Bearer" +:+ String " " (API_TOKEN +:+ String " " trailing)).
    rewrite split_app_sep by reflexivity.
    rewrite split_app_sep by reflexivity.
    simpl. reflexivity.
  - apply verify_token_total.
Qed.

(** ** The order of file names *)

Section OrderFacts.

Lemma nat_of_ascii_inj a b : nat_of_ascii a = nat_of_ascii b -> a = b.
Proof.
  intros H. rewrite <- (ascii_nat_embedding a), <- (ascii_nat_embedding b).
  now rewrite H.
Qed.

Lemma leb_refl s : Text.leb s s = true.
Proof.
  induction s as [|a s IH]; simpl; [reflexivity|].
  now rewrite Nat.ltb_irrefl.
Qed.

Lemma leb_total s t : Text.leb s t = true \/ Text.leb t s = true.
Proof.
  revert t; induction s as [|a s IH]; intros [|b t]; simpl; auto.
  destruct (Nat.ltb_spec (nat_of_ascii a) (nat_of_ascii b)); auto.
  destruct (Nat.ltb_spec (nat_of_ascii b) (nat_of_ascii a)); auto.
Qed.

Lemma leb_trans s t u :
  Text.leb s t = true -> Text.leb t u = true -> Text.leb s u = true.
Proof.
  revert t u; induction s as [|a s IH]; intros [|b t] [|c u]; simpl; auto;
    try discriminate.
  destruct (Nat.ltb_spec (nat_of_ascii a) (nat_of_ascii b)),
           (Nat.ltb_spec (nat_of_ascii b) (nat_of_ascii c)),
           (Nat.ltb_spec (nat_of_ascii a) (nat_of_ascii c)); auto; try lia;
    destruct (Nat.ltb_spec (nat_of_ascii b) (nat_of_ascii a)); try discriminate;
    destruct (Nat.ltb_spec (nat_of_ascii c) (nat_of_ascii b)); try discriminate;
    destruct (Nat.ltb_spec (nat_of_ascii c) (nat_of_ascii a)); try lia.
  apply IH.
Qed.

Lemma leb_antisym s t :
  Text.leb s t = true -> Text.leb t s = true -> s = t.
Proof.
  revert t; induction s as [|a s IH]; intros [|b t]; simpl; auto;
    try discriminate.
  destruct (Nat.ltb_spec (nat_of_ascii a) (nat_of_ascii b)),
           (Nat.ltb_spec (nat_of_ascii b) (nat_of_ascii a));
    try discriminate; try lia.
  intros Hst Hts. f_equal; [apply nat_of_ascii_inj; lia | now apply IH].
Qed.

(** A common prefix does not change the order. *)
Lemma leb_app_l p s t : Text.leb (p +:+ s) (p +:+ t) = Text.leb s t.
Proof.
  induction p as [|a p IH]; simpl; [reflexivity|].
  now rewrite Nat.ltb_irrefl.
Qed.

(** Nor does a common suffix after texts of one length. *)
Lemma leb_app_r s t u :
  String.length s = String.length t ->
  Text.leb (s +:+ u) (t +:+ u) = Text.leb s t.
Proof.
  revert t; induction s as [|a s IH]; intros [|b t]; simpl; try discriminate.
  - intros _. apply leb_refl.
  - intros [= H]. rewrite (IH _ H). reflexivity.
Qed.

(** Paths under the data directory are ordered as their file names are. *)
Lemma path_ge_names a b : path_ge a b <-> Text.leb b a = true.
Proof.
  unfold path_ge, data_path.
  change (DATA_DIR +:+ "/" +:+ ?n) with ("data/" +:+ n).
  now rewrite leb_app_l.
Qed.

Lemma path_ge_total : Total path_ge.
Proof. intros a b. rewrite !path_ge_names. destruct (leb_total a b); auto. Qed.

Lemma path_ge_trans : Transitive path_ge.
Proof.
  intros a b c. rewrite !path_ge_names. intros Hab Hbc. eapply leb_trans; eauto.
Qed.

(** Descending, and strictly so between different files. *)
Lemma path_ge_antisym a b : path_ge a b -> path_ge b a -> a = b.
Proof. rewrite !path_ge_names. intros Hab Hba. now apply leb_antisym. Qed.

Lemma sorted_reverse_Permutation files : sorted_reverse files ≡ₚ files.
Proof. apply merge_sort_Permutation. Qed.

Lemma sorted_reverse_sorted files : StronglySorted path_ge (sorted_reverse files).
Proof.
  pose proof path_ge_total. pose proof path_ge_trans.
  apply StronglySorted_merge_sort; apply _.
Qed.

Lemma sorted_reverse_elem files f : f ∈ sorted_reverse files <-> f ∈ files.
Proof. now rewrite sorted_reverse_Permutation. Qed.

(** There is one way to put files in descending order: any sort gives it. *)
Lemma sorted_reverse_unique files sorted :
  sorted ≡ₚ files -> StronglySorted path_ge sorted -> sorted = sorted_reverse files.
Proof.
  intros Hperm Hsorted.
  pose proof (path_ge_antisym : AntiSymm (=) path_ge).
  apply (StronglySorted_unique path_ge); [exact Hsorted|apply sorted_reverse_sorted|].
  now rewrite sorted_reverse_Permutation.
Qed.

(** Between two partitions of one address with dates of one length, the
    later date has the greater path. *)
Lemma partition_file_order ip d1 d2 :
  String.length d1 = String.length d2 ->
  path_ge (partition_file ip d2) (partition_file ip d1) <-> Text.leb d1 d2 = true.
Proof.
  intros Hlen. rewrite path_ge_names. unfold partition_file.
  rewrite leb_app_l. change ("_" +:+ ?d +:+ ".jsonl") with (String "_" (d +:+ ".jsonl")).
  change (Text.leb (String "_" (d1 +:+ ".jsonl")) (String "_" (d2 +:+ ".jsonl")))
    with (Text.leb (d1 +:+ ".jsonl") (d2 +:+ ".jsonl")).
  now rewrite leb_app_r.
Qed.

End OrderFacts.

(** ** Reading files *)

Section ReadingFacts.

Variable rt : Runtime.

Lemma read_lines_fst lines acc :
  (read_lines rt lines acc).1 = acc ++ records_before_error rt lines.
Proof.
  revert acc; induction lines as [|l lines IH]; intros acc; simpl.
  - now rewrite app_nil_r.
  - destruct (Text.nonblank l); [|apply IH].
    destruct (json_loads rt l) as [r|]; simpl.
    + rewrite IH, <- app_assoc. reflexivity.
    + now rewrite app_nil_r.
Qed.

Lemma all_records_cons l lines :
  all_records rt (l :: lines) =
  (if Text.nonblank l then
     match json_loads rt l with Some r => [r] | None => [] end
   else []) ++ all_records rt lines.
Proof.
  unfold all_records. rewrite filter_cons.
  destruct (Text.nonblank l) eqn:Hl.
  - rewrite decide_True by reflexivity. simpl.
    destruct (json_loads rt l); reflexivity.
  - rewrite decide_False by discriminate. reflexivity.
Qed.

Lemma records_before_error_all lines :
  Forall (parses rt) lines -> records_before_error rt lines = all_records rt lines.
Proof.
  induction 1 as [|l lines Hl _ IH]; [reflexivity|].
  rewrite all_records_cons. simpl. unfold parses in Hl.
  destruct (Text.nonblank l); [|exact IH].
  destruct (Hl eq_refl) as [r ->]. simpl. now rewrite IH.
Qed.

Lemma records_before_error_cut before bad after :
  Forall (parses rt) before -> unparseable rt bad ->
  records_before_error rt (before ++ bad :: after) = all_records rt before.
Proof.
  intros Hb [Hnb Hbad]. induction Hb as [|l lines Hl _ IH]; simpl.
  - now rewrite Hnb, Hbad.
  - rewrite all_records_cons. unfold parses in Hl.
    destruct (Text.nonblank l); [|exact IH].
    destruct (Hl eq_refl) as [r ->]. simpl. now rewrite IH.
Qed.

(** A line the loop passes over does not change what it collects. *)
Lemma records_before_error_skip before l after :
  Text.nonblank l = false ->
  records_before_error rt (before ++ l :: after) =
  records_before_error rt (before ++ after).
Proof.
  intros Hl. induction before as [|x before IH]; simpl.
  - now rewrite Hl.
  - destruct (Text.nonblank x); [|exact IH].
    destruct (json_loads rt x); [now rewrite IH|reflexivity].
Qed.

(** A line of ASCII white space is blank. *)
Lemma ascii_white_space_blank l :
  forallb Text.isspace (list_ascii_of_string l) = true -> Text.nonblank l = false.
Proof.
  induction l as [|c l IH]; [reflexivity|]. simpl.
  intros H. apply andb_prop in H as [Hc Hl]. rewrite Hc. now apply IH.
Qed.

(** The lines of a file, in the three cases of reading it. *)
Lemma file_lines_locked fs f : open_fails rt f = true -> file_lines rt fs f = [].
Proof. intros H. unfold file_lines. now rewrite H. Qed.

Lemma file_lines_readable fs f :
  readable rt fs f -> file_lines rt fs f = Text.readlines (file_text fs f).
Proof. intros [Ho Hv]. unfold file_lines, iterate. now rewrite Ho, Hv. Qed.

Lemma file_lines_undecodable fs f :
  open_fails rt f = false -> Text.utf8_valid (file_text fs f) = false ->
  file_lines rt fs f = lines_before_decode_error rt (file_text fs f).
Proof. intros Ho Hv. unfold file_lines, iterate. now rewrite Ho, Hv. Qed.

Lemma file_lines_empty fs f : file_text fs f = EmptyString -> file_lines rt fs f = [].
Proof.
  intros H. unfold file_lines, iterate. rewrite H.
  now destruct (open_fails rt f).
Qed.

Lemma read_files_spec fs files acc :
  read_files rt fs files acc =
  acc ++ concat ((fun f => records_before_error rt (file_lines rt fs f)) <$> files).
Proof.
  revert acc; induction files as [|f files IH]; intros acc; simpl.
  - now rewrite app_nil_r.
  - unfold file_lines, file_text at 1.
    destruct (open_fails rt f); [now rewrite IH|].
    destruct (fs !! f) as [text|] eqn:Hf; simpl.
    + rewrite IH, read_lines_fst, <- app_assoc. reflexivity.
    + rewrite IH. reflexivity.
Qed.

(** The files other than [f] are read the same with or without [f]. *)
Lemma read_files_delete fs f files acc :
  f ∉ files -> read_files rt (delete f fs) files acc = read_files rt fs files acc.
Proof.
  revert acc; induction files as [|g files IH]; intros acc Hf; simpl; [reflexivity|].
  apply not_elem_of_cons in Hf as [Hne Hf].
  rewrite lookup_delete_ne by done.
  destruct (open_fails rt g); [now apply IH|].
  destruct (fs !! g); now apply IH.
Qed.

Lemma glob_NoDup fs pattern : NoDup (glob rt fs pattern).
Proof. unfold glob. apply NoDup_filter, NoDup_elements. Qed.

Lemma glob_elem fs pattern f :
  f ∈ glob rt fs pattern <->
  ((ishidden pattern || negb (ishidden f)) && fnmatch rt f pattern = true) /\
  is_Some (fs !! f).
Proof.
  unfold glob. rewrite list_elem_of_filter, elem_of_elements, elem_of_dom.
  reflexivity.
Qed.

Lemma files_read_elem fs ip f :
  f ∈ files_read rt fs ip -> f ∈ glob rt fs (search_pattern ip).
Proof. unfold files_read. now rewrite sorted_reverse_elem. Qed.

Lemma files_read_NoDup fs ip : NoDup (files_read rt fs ip).
Proof.
  unfold files_read. rewrite sorted_reverse_Permutation. apply glob_NoDup.
Qed.

Lemma query_data_found fs ip :
  glob rt fs (search_pattern ip) <> [] ->
  query_data rt fs ip = Return (read_files rt fs (files_read rt fs ip) []).
Proof.
  intros Hne. unfold query_data, files_read.
  destruct (glob rt fs (search_pattern ip)); [contradiction|reflexivity].
Qed.

Lemma query_data_not_found fs ip :
  glob rt fs (search_pattern ip) = [] ->
  query_data rt fs ip =
  Raise (HTTPException 404 ("No se encontraron datos para la IP: " +:+ ip)).
Proof. intros H. unfold query_data. now rewrite H. Qed.

Lemma forallb_concat {A} (p : A -> bool) (ls : list (list A)) :
  Forall (fun l => forallb p l = true) ls -> forallb p (concat ls) = true.
Proof.
  induction 1 as [|l ls Hl _ IH]; simpl; [reflexivity|].
  now rewrite forallb_app, Hl, IH.
Qed.

Lemma records_before_error_dicts lines :
  Forall (object_if_parsed rt) lines ->
  forallb is_dict (records_before_error rt lines) = true.
Proof.
  induction 1 as [|l lines Hl _ IH]; simpl; [reflexivity|].
  unfold object_if_parsed in Hl.
  destruct (Text.nonblank l); [|exact IH].
  destruct (json_loads rt l) as [r|]; [|reflexivity].
  simpl in *. rewrite IH, andb_true_r.
  destruct (is_dict r); [reflexivity|]. now destruct (Hl eq_refl).
Qed.

Lemma record_line_parses l : record_line rt l -> parses rt l.
Proof.
  unfold record_line, parses. intros H Hnb. specialize (H Hnb).
  destruct (json_loads rt l); [eauto|discriminate].
Qed.

Lemma record_line_object l : record_line rt l -> object_if_parsed rt l.
Proof.
  unfold record_line, object_if_parsed. intros H Hnb. rewrite (H Hnb). discriminate.
Qed.

Lemma unparseable_object l : unparseable rt l -> object_if_parsed rt l.
Proof.
  unfold object_if_parsed. intros [_ ->] _. discriminate.
Qed.

Lemma well_formed_objects_only fs ip : well_formed rt fs ip -> objects_only rt fs ip.
Proof.
  intros H f Hf. destruct (H f Hf) as [Hr Hl].
  rewrite (file_lines_readable _ _ Hr).
  eapply Forall_impl; [exact Hl|]. apply record_line_object.
Qed.

(** With objects only on the lines, the response model lets the handler's
    list through. *)
Lemma GET_query_found fs ip :
  glob rt fs (search_pattern ip) <> [] -> objects_only rt fs ip ->
  GET_query rt fs ip = OK (JArr (read_files rt fs (files_read rt fs ip) [])).
Proof.
  intros Hne Hobj. unfold GET_query. rewrite (query_data_found _ _ Hne).
  rewrite read_files_spec at 1. simpl.
  rewrite forallb_concat; [reflexivity|].
  apply Forall_fmap, Forall_forall. intros f Hf. simpl.
  apply records_before_error_dicts, Hobj.
  now apply files_read_elem.
Qed.

Lemma all_records_app l1 l2 :
  all_records rt (l1 ++ l2) = all_records rt l1 ++ all_records rt l2.
Proof. unfold all_records. now rewrite filter_app, omap_app. Qed.

Lemma all_records_unparseable bad : unparseable rt bad -> all_records rt [bad] = [].
Proof.
  intros [Hnb Hbad]. rewrite all_records_cons, Hnb, Hbad. reflexivity.
Qed.

End ReadingFacts.



(** C7. The query fails with 404, in a message that names the address, exactly
    when no file matches [<address>_*.jsonl]; when files match and all are
    empty it succeeds with an empty list. *)
Theorem query_not_found_iff_no_file (rt : Runtime) (fs : storage) (ip : string) :
  (GET_query rt fs ip = HTTPError 404 ("No se encontraron datos para la IP: " +:+ ip)
   <-> glob rt fs (search_pattern ip) = []) /\
  (status (GET_query rt fs ip) = 404 <-> glob rt fs (search_pattern ip) = []) /\
  (glob rt fs (search_pattern ip) <> [] ->
   (forall f, f ∈ glob rt fs (search_pattern ip) -> fs !! f = Some EmptyString) ->
   GET_query rt fs ip = OK (JArr [])).
Proof.
  assert (Hfound : glob rt fs (search_pattern ip) <> [] ->
                   status (GET_query rt fs ip) <> 404).
  { intros Hne. unfold GET_query. rewrite (query_data_found _ _ _ Hne).
    destruct (forallb _ _); simpl; discriminate. }
  split; [|split].
  - split; intros H.
    + destruct (glob rt fs (search_pattern ip)) eqn:Hg; [reflexivity|].
      exfalso. apply Hfound; [discriminate|]. now rewrite H.
    + unfold GET_query. now rewrite (query_data_not_found _ _ _ H).
  - split; intros H.
    + destruct (glob rt fs (search_pattern ip)) eqn:Hg; [reflexivity|].
      exfalso. apply Hfound; [discriminate|]. exact H.
    + unfold GET_query. now rewrite (query_data_not_found _ _ _ H).
  - intros Hne Hempty.
    assert (Hnone : forall f, f ∈ glob rt fs (search_pattern ip) ->
                              file_lines rt fs f = []).
    { intros f Hf. apply file_lines_empty. unfold file_text.
      now rewrite (Hempty f Hf). }
    assert (Hobj : objects_only rt fs ip).
    { intros f Hf. rewrite (Hnone f Hf). constructor. }
    rewrite (GET_query_found _ _ _ Hne Hobj), read_files_spec. simpl.
    do 2 f_equal. apply concat_nil_Forall, Forall_fmap, Forall_forall.
    intros f Hf. simpl. apply files_read_elem in Hf.
    now rewrite (Hnone f Hf).
Qed.

Section Corruption.

Variable rt : Runtime.

Lemma well_formed_Forall fs ip :
  Forall (fun f => readable rt fs f /\
                   Forall (record_line rt) (Text.readlines (file_text fs f)))
         (glob rt fs (search_pattern ip)) ->
  well_formed rt fs ip.
Proof. intros H f Hf. revert f Hf. now apply Forall_forall. Qed.

Lemma objects_only_Forall fs ip :
  Forall (fun f => Forall (object_if_parsed rt) (file_lines rt fs f))
         (glob rt fs (search_pattern ip)) ->
  objects_only rt fs ip.
Proof. intros H f Hf. revert f Hf. now apply Forall_forall. Qed.

(** Where a file stands among the files read, and what the files before and
    after it give; neither depends on the file itself. *)
Lemma read_around fs ip f :
  f ∈ glob rt fs (search_pattern ip) ->
  exists newer older,
    files_read rt fs ip = newer ++ f :: older /\
    query_data rt fs ip =
      Return (read_files rt (delete f fs) newer [] ++
              records_before_error rt (file_lines rt fs f) ++
              read_files rt (delete f fs) older []).
Proof.
  intros Hf.
  assert (Hne : glob rt fs (search_pattern ip) <> []).
  { intros E. rewrite E in Hf. now apply not_elem_of_nil in Hf. }
  assert (Hin : f ∈ files_read rt fs ip).
  { unfold files_read. now apply sorted_reverse_elem. }
  destruct (list_elem_of_split _ _ Hin) as (newer & older & Hsplit).
  exists newer, older. split; [exact Hsplit|].
  pose proof (files_read_NoDup rt fs ip) as Hnd. rewrite Hsplit in Hnd.
  apply NoDup_app in Hnd as (_ & Hno & Hnd).
  apply NoDup_cons in Hnd as [Hold _].
  assert (Hnew : f ∉ newer).
  { intros Hn. apply (Hno f Hn). now left. }
  rewrite (query_data_found _ _ _ Hne), Hsplit.
  rewrite !read_files_delete by assumption.
  rewrite !read_files_spec. simpl.
  now rewrite fmap_app, concat_app.
Qed.

(** The answer, once the handler's list is known to hold objects only. *)
Lemma GET_query_objects fs ip records :
  glob rt fs (search_pattern ip) <> [] ->
  query_data rt fs ip = Return records ->
  objects_only rt fs ip ->
  GET_query rt fs ip = OK (JArr records).
Proof.
  intros Hne Hq Hobj.
  pose proof (GET_query_found rt fs ip Hne Hobj) as Hget.
  unfold GET_query in *. rewrite Hq in *.
  destruct (forallb is_dict _); [reflexivity|discriminate].
Qed.

End Corruption.








Lemma query_not_found_iff_no_file_witness :
  GET_query py Sample.fs_two_days "9.9.9.9" =
    HTTPError 404 "No se encontraron datos para la IP: 9.9.9.9" /\
  GET_query py Sample.fs_empty_files "1.2.3.4" = OK (JArr []).
Proof.
  split.
  - apply (query_not_found_iff_no_file py Sample.fs_two_days "9.9.9.9").
    vm_compute. reflexivity.
  - apply (query_not_found_iff_no_file py Sample.fs_empty_files "1.2.3.4").
    + vm_compute. discriminate.
    + intros f Hf.
      assert (Hglob : glob py Sample.fs_empty_files (search_pattern "1.2.3.4")
                      = [Sample.day1; Sample.day2]) by (vm_compute; reflexivity).
      rewrite Hglob in Hf. apply elem_of_cons in Hf as [->|Hf]; [reflexivity|].
      apply list_elem_of_singleton in Hf as ->. reflexivity.
Defined.

(** ** Receiving a snapshot *)

Section CollectFacts.

Variable rt : Runtime.

Lemma POST_collect_unread clk req fs :
  body_is_read (body req) = false ->
  POST_collect rt clk req fs =
  (match body req with
   | ParsingError => HTTPError 400 "There was an error parsing the body"
   | _ => RequestValidationError
   end, fs).
Proof. unfold POST_collect. destruct (body req); [discriminate..|reflexivity|reflexivity]. Qed.

Lemma POST_collect_read clk req fs :
  body_is_read (body req) = true ->
  POST_collect rt clk req fs =
  match authorization req with
  | None => (RequestValidationError, fs)
  | Some header =>
      match verify_token header with
      | Raise (HTTPException code detail) => (HTTPError code detail, fs)
      | Raise IndexError => (InternalServerError, fs)
      | Return _ =>
          match validate_body rt (body req) with
          | None => (RequestValidationError, fs)
          | Some data =>
              let '(content, fs') := collect_data rt clk data (client_host req) fs in
              (OK content, fs')
          end
      end
  end.
Proof. unfold POST_collect. destruct (body req); [reflexivity..|discriminate|discriminate]. Qed.

Lemma validate_body_read b data : validate_body rt b = Some data -> body_is_read b = true.
Proof. destruct b; [reflexivity|discriminate..]. Qed.

Lemma POST_collect_rejected clk req fs header detail :
  body_is_read (body req) = true ->
  authorization req = Some header ->
  verify_token header = Raise (HTTPException 401 detail) ->
  POST_collect rt clk req fs = (HTTPError 401 detail, fs).
Proof. intros Hb Ha Hv. rewrite (POST_collect_read _ _ _ Hb). now rewrite Ha, Hv. Qed.

Lemma POST_collect_invalid clk req fs header :
  body_is_read (body req) = true ->
  authorization req = Some header ->
  verify_token header = Return tt ->
  validate_body rt (body req) = None ->
  POST_collect rt clk req fs = (RequestValidationError, fs).
Proof. intros Hb Ha Hv Hd. rewrite (POST_collect_read _ _ _ Hb). now rewrite Ha, Hv, Hd. Qed.

Lemma POST_collect_accepted clk req fs header data :
  authorization req = Some header ->
  verify_token header = Return tt ->
  validate_body rt (body req) = Some data ->
  POST_collect rt clk req fs =
  (OK (JObj [("status", JStr "success");
             ("message", JStr ("Datos recibidos de " +:+ client_host req))]),
   append_text fs (partition_file (client_host req) (today_date clk))
     (json_dumps rt (stored_record (now_isoformat clk) data)
      +:+ String Text.LF EmptyString)).
Proof.
  intros Ha Hv Hd.
  rewrite (POST_collect_read _ _ _ (validate_body_read _ _ Hd)).
  now rewrite Ha, Hv, Hd.
Qed.

(** A binding under another key does not change what a key gives. *)
Lemma get_middle k k' v (d1 d2 : dict) :
  k' <> k -> get k' (d1 ++ (k, v) :: d2) = get k' (d1 ++ d2).
Proof.
  intros Hne. induction d1 as [|[k0 v0] d1 IH]; simpl.
  - apply String.eqb_neq in Hne. rewrite String.eqb_sym in Hne. now rewrite Hne.
  - now rewrite IH.
Qed.

Lemma validate_SystemData_ignores k v (d1 d2 : dict) :
  k ∉ declared_fields ->
  validate_SystemData rt (JObj (d1 ++ (k, v) :: d2)) =
  validate_SystemData rt (JObj (d1 ++ d2)).
Proof.
  intros Hk. unfold declared_fields in Hk.
  repeat (apply not_elem_of_cons in Hk as [? Hk]).
  unfold validate_SystemData, required.
  rewrite !get_middle by congruence. reflexivity.
Qed.

End CollectFacts.

(** C8, as stated, fails: with a refused token, a body that is declared JSON
    and is not JSON is answered 422, not 401, and a body that cannot be read
    400: the body is read before the token is looked at. *)
Lemma refused_token_with_unread_body :
  verify_token "Bearer wrongtoken" =
    Raise (HTTPException 401 "Token de autorización inválido") /\
  POST_collect py Sample.clock Sample2.request_invalid_json Sample.fs_two_days
    = (RequestValidationError, Sample.fs_two_days) /\
  status (POST_collect py Sample.clock Sample2.request_invalid_json
            Sample.fs_two_days).1 = 422 /\
  status (POST_collect py Sample.clock Sample2.request_unreadable
            Sample.fs_two_days).1 = 400.
Proof. repeat split; vm_compute; reflexivity. Qed.

(** C8, as the code has it. A request whose header does not start with
    ["Bearer "], or whose token (the piece after the first space) is not the
    configured secret, leaves the storage as it was. It is answered 401 when
    its body was read; when the body is declared JSON and is not, it is
    answered 422, and when reading or parsing the body fails otherwise, 400,
    the token not being looked at. *)
Theorem bad_token_is_rejected (rt : Runtime) (clk : Clock) (req : Request)
    (fs : storage) (header : string) :
  authorization req = Some header ->
  (Text.startswith "Bearer " header = false \/
   Text.split " " header !! 1%nat <> Some API_TOKEN) ->
  (POST_collect rt clk req fs).2 = fs /\
  (body_is_read (body req) = true ->
   exists detail, POST_collect rt clk req fs = (HTTPError 401 detail, fs)) /\
  (body req = JsonInvalid ->
   POST_collect rt clk req fs = (RequestValidationError, fs)) /\
  (body req = ParsingError ->
   POST_collect rt clk req fs =
   (HTTPError 400 "There was an error parsing the body", fs)).
Proof.
  intros Ha Hbad.
  assert (Hread : body_is_read (body req) = true ->
                  exists detail, POST_collect rt clk req fs = (HTTPError 401 detail, fs)).
  { intros Hb. destruct (verify_token_total header) as [Hok|[detail Hko]].
    - apply verify_token_accepts_inv in Hok as [Hp Ht].
      destruct Hbad as [Hbad|Hbad]; [congruence|contradiction].
    - exists detail. now apply POST_collect_rejected with header. }
  split; [|split; [exact Hread|split]].
  - destruct (body_is_read (body req)) eqn:Hb.
    + destruct (Hread eq_refl) as [detail ->]. reflexivity.
    + now rewrite (POST_collect_unread rt clk req fs Hb).
  - intros Hb. rewrite POST_collect_unread; now rewrite Hb.
  - intros Hb. rewrite POST_collect_unread; now rewrite Hb.
Qed.

Lemma bad_token_is_rejected_witness :
  (exists detail,
     POST_collect py Sample.clock (Sample.request "Bearer wrongtoken" Sample.snapshot)
                  Sample.fs_two_days
     = (HTTPError 401 detail, Sample.fs_two_days)) /\
  (POST_collect py Sample.clock Sample2.request_invalid_json Sample.fs_two_days).2
  = Sample.fs_two_days.
Proof.
  split.
  - apply (bad_token_is_rejected py Sample.clock
             (Sample.request "Bearer wrongtoken" Sample.snapshot)
             Sample.fs_two_days "Bearer wrongtoken").
    + reflexivity.
    + right. vm_compute. discriminate.
    + reflexivity.
  - apply (bad_token_is_rejected py Sample.clock Sample2.request_invalid_json
             Sample.fs_two_days "Bearer wrongtoken").
    + reflexivity.
    + right. vm_compute. discriminate.
Defined.




(** ** The reference matcher on partition names *)

Section MatcherFacts.

Lemma length_append (a b : string) :
  String.length (a +:+ b) = (String.length a + String.length b)%nat.
Proof.
  induction a as [|x a IH]; [reflexivity|].
  change (S (String.length (a +:+ b)) = S (String.length a + String.length b)).
  now rewrite IH.
Qed.

(** Ordinary characters match themselves. *)
Lemma wild_literal p q n fuel :
  Ref.no_magic p = true ->
  Ref.wild (String.length p + fuel) (p +:+ q) (p +:+ n) = Ref.wild fuel q n.
Proof.
  induction p as [|c p IH]; intros Hp; [reflexivity|].
  simpl in Hp. apply andb_prop in Hp as [Hc Hp].
  apply negb_true_iff, orb_false_iff in Hc as [Hc H91].
  apply orb_false_iff in Hc as [H42 H63].
  change (Ref.wild (S (String.length p + fuel)) (String c (p +:+ q))
                   (String c (p +:+ n)) = Ref.wild fuel q n).
  simpl. rewrite H42, H63, H91, Ascii.eqb_refl. simpl. now apply IH.
Qed.

(** A star takes any text in front of what the rest of the pattern matches. *)
Lemma wild_star fuel q d n :
  Ref.at_boundary n = true ->
  Ref.wild fuel q n = true ->
  Ref.wild (S fuel) (String "*" q) (d +:+ n) = true.
Proof.
  intros Hb Hq. induction d as [|c d IH].
  - change (EmptyString +:+ n) with n. simpl. destruct n; now rewrite Hb, Hq.
  - change (String c d +:+ n) with (String c (d +:+ n)).
    simpl in *. rewrite IH. apply orb_true_r.
Qed.

(** The partition written for an address without special characters matches
    the pattern searched for that address. *)
Lemma fnmatch_partition_file ip today :
  Ref.no_magic ip = true ->
  Ref.fnmatch (partition_file ip today) (search_pattern ip) = true.
Proof.
  intros Hip. unfold Ref.fnmatch, partition_file, search_pattern.
  rewrite length_append.
  change (S (String.length ip + String.length "_*.jsonl"))
    with (S (String.length ip + 8))%nat.
  replace (S (String.length ip + 8))%nat with (String.length ip + 9)%nat by lia.
  rewrite (wild_literal ip _ _ 9 Hip).
  change ("_" +:+ today +:+ ".jsonl") with ("_" +:+ (today +:+ ".jsonl")).
  change "_*.jsonl" with ("_" +:+ "*.jsonl").
  rewrite (wild_literal "_" _ _ 8 eq_refl).
  apply wild_star; reflexivity.
Qed.

End MatcherFacts.

(** ** A snapshot received, then queried *)

Section RoundTrip.

Variable rt : Runtime.

(** A partition's name is hidden exactly when the pattern of its address is. *)
Lemma ishidden_partition ip today :
  ishidden (search_pattern ip) = ishidden (partition_file ip today).
Proof. destruct ip; reflexivity. Qed.

(** The first line written for an address nothing matched before. *)
Lemma glob_after_first_write fs ip today line :
  glob rt fs (search_pattern ip) = [] ->
  fnmatch rt (partition_file ip today) (search_pattern ip) = true ->
  fs !! partition_file ip today = None /\
  glob rt (append_text fs (partition_file ip today) line) (search_pattern ip)
  = [partition_file ip today].
Proof.
  intros Hnone Hmatch.
  assert (Hcond : (ishidden (search_pattern ip)
                   || negb (ishidden (partition_file ip today)))
                  && fnmatch rt (partition_file ip today) (search_pattern ip) = true).
  { rewrite Hmatch, (ishidden_partition ip today).
    now destruct (ishidden (partition_file ip today)). }
  assert (Hfresh : fs !! partition_file ip today = None).
  { destruct (fs !! partition_file ip today) eqn:Hf; [|reflexivity].
    assert (Hin : partition_file ip today ∈ glob rt fs (search_pattern ip)).
    { apply glob_elem. split; [exact Hcond|]. rewrite Hf. eauto. }
    rewrite Hnone in Hin. now apply not_elem_of_nil in Hin. }
  split; [exact Hfresh|].
  apply Permutation_singleton_r, NoDup_Permutation.
  - apply glob_NoDup.
  - apply NoDup_singleton.
  - intros x. rewrite glob_elem, list_elem_of_singleton. split.
    + intros [Hc Hs]. destruct (decide (x = partition_file ip today)) as [|Hne];
        [assumption|].
      unfold append_text in Hs. rewrite lookup_insert_ne in Hs by congruence.
      assert (Hin : x ∈ glob rt fs (search_pattern ip)) by now apply glob_elem.
      rewrite Hnone in Hin. now apply not_elem_of_nil in Hin.
    + intros ->. split; [exact Hcond|].
      unfold append_text. rewrite lookup_insert_eq. eauto.
Qed.

Lemma sorted_reverse_singleton f : sorted_reverse [f] = [f].
Proof. apply Permutation_singleton_r, sorted_reverse_Permutation. Qed.

Lemma validate_SystemData_names b data :
  validate_SystemData rt b = Some data ->
  exists d, b = JObj d /\
    get "os_name" d = Some (JStr (os_name data)) /\
    get "os_version" d = Some (JStr (os_version data)).
Proof.
  destruct b as [| | | | | |d]; try discriminate. intros H. exists d.
  split; [reflexivity|]. unfold validate_SystemData, required in H.
  destruct (get "os_name" d) as [[]|]; try discriminate H.
  destruct (get "os_version" d) as [[]|]; try discriminate H.
  cbn in H.
  repeat (match type of H with
          | (?m ≫= _) = Some _ => destruct m; cbn in H; [|discriminate H]
          end).
  injection H as <-. auto.
Qed.

(** The line written for a record is ASCII. *)
Lemma written_line_ascii record :
  one_line_round_trip rt record ->
  Text.isascii (json_dumps rt record +:+ String Text.LF EmptyString) = true.
Proof. intros (Ha & _). now rewrite isascii_app, Ha. Qed.

(** A file that holds the line of one record gives that record. *)
Lemma one_line_read fs f record :
  open_fails rt f = false ->
  file_text fs f = json_dumps rt record +:+ String Text.LF EmptyString ->
  one_line_round_trip rt record ->
  readable rt fs f /\ records_before_error rt (file_lines rt fs f) = [record].
Proof.
  intros Ho Htext Hrt.
  assert (Hr : readable rt fs f).
  { split; [exact Ho|]. rewrite Htext.
    now apply isascii_utf8_valid, written_line_ascii. }
  split; [exact Hr|].
  rewrite (file_lines_readable _ _ _ Hr), Htext.
  destruct Hrt as (Ha & Hlf & Hcr & Hnb & Hload).
  unfold Text.readlines.
  rewrite (lines_from_one_line EmptyString _ Hlf Hcr).
  change (EmptyString +:+ ?s) with s. simpl.
  now rewrite (nonblank_ascii_app _ _ Ha Hnb), Hload.
Qed.

End RoundTrip.




(** ** What validation accepts *)

Section ShapeFacts.

Variable rt : Runtime.

Lemma validate_str_is_Some v : is_Some (validate_str v) <-> exists s, v = JStr s.
Proof.
  split.
  - intros [s H]. destruct v; try discriminate H. eauto.
  - intros [s ->]. simpl. eauto.
Qed.

Lemma required_is_Some {A} (f : json -> option A) d k :
  is_Some (required f d k) <-> exists v, get k d = Some v /\ is_Some (f v).
Proof.
  unfold required. destruct (get k d) as [v|].
  - split; [eauto|]. now intros (v' & [= <-] & H).
  - split; [intros [? H]; discriminate H|]. now intros (v' & H & _).
Qed.

Lemma validate_process_item_is_Some i :
  is_Some (validate_process_item i) <-> is_dict i = true.
Proof.
  destruct i; simpl; try (split; [intros [? H]; discriminate H|discriminate]).
  split; [reflexivity|]. intros _.
  destruct (_ ≫= _); eauto.
Qed.

Lemma validate_UserInfo_is_Some i : is_Some (validate_UserInfo i) <-> user_entry i.
Proof.
  split.
  - destruct i as [| | | | | |d]; try (intros [? H]; discriminate H).
    unfold validate_UserInfo, required, optional. intros [u H].
    exists d. split; [reflexivity|].
    destruct (get "user" d) as [[]|]; try discriminate H.
    split; [eauto|].
    destruct (get "terminal" d) as [[]|]; try discriminate H; eauto.
  - intros (d & -> & [s Hs] & Ht).
    unfold validate_UserInfo, required, optional. rewrite Hs.
    destruct Ht as [->|[->|[t ->]]]; simpl; eauto.
Qed.

Lemma validate_running_processes_is_Some v :
  is_Some (validate_running_processes v) <-> object_list v.
Proof.
  unfold object_list. split.
  - destruct v as [| | | | |items|]; try (intros [? H]; discriminate H).
    simpl. rewrite mapM_is_Some. intros H. exists items. split; [reflexivity|].
    eapply Forall_impl; [exact H|]. intros i. apply validate_process_item_is_Some.
  - intros (items & -> & H). simpl. rewrite mapM_is_Some.
    eapply Forall_impl; [exact H|]. intros i. apply validate_process_item_is_Some.
Qed.

Lemma validate_logged_in_users_is_Some v :
  is_Some (validate_logged_in_users v) <-> users_or_object v.
Proof.
  unfold users_or_object. split.
  - destruct v as [| | | | |items|d]; try (intros [? H]; discriminate H).
    + simpl. rewrite fmap_is_Some, mapM_is_Some. intros H. right.
      exists items. split; [reflexivity|].
      eapply Forall_impl; [exact H|]. intros i. apply validate_UserInfo_is_Some.
    + intros _. left. eauto.
  - intros [[d ->]|(items & -> & H)]; simpl; [eauto|].
    rewrite fmap_is_Some, mapM_is_Some.
    eapply Forall_impl; [exact H|]. intros i. apply validate_UserInfo_is_Some.
Qed.

Lemma five_fields_is_Some {A B C D E R} (ma : option A) (mb : option B)
    (mc : option C) (md : option D) (me : option E) (mk : A -> B -> C -> D -> E -> R) :
  is_Some (a ← ma; b ← mb; c ← mc; d ← md; e ← me; Some (mk a b c d e)) <->
  is_Some ma /\ is_Some mb /\ is_Some mc /\ is_Some md /\ is_Some me.
Proof.
  destruct ma, mb, mc, md, me; simpl; split;
    try (intros [? H]; discriminate H);
    try (intros (H1 & H2 & H3 & H4 & H5);
         first [ now destruct H1 | now destruct H2 | now destruct H3
               | now destruct H4 | now destruct H5 ]);
    eauto 10.
Qed.

End ShapeFacts.

(** C9, as stated, fails: a snapshot whose process list holds, next to a
    process, a dict that is neither a process nor an error marker, and whose
    users are such a dict, passes validation and is stored; neither field
    has a shape the specification lists. *)
Lemma stray_dicts_are_accepted :
  is_Some (validate_SystemData py Sample.snapshot_with_strays) /\
  status (POST_collect py Sample.clock
            (Sample.request Sample.bearer Sample.snapshot_with_strays) ∅).1 = 200 /\
  (exists p, get "running_processes" (members Sample.snapshot_with_strays)
             = Some p /\ ~ running_processes_spec p) /\
  (exists u, get "logged_in_users" (members Sample.snapshot_with_strays)
             = Some u /\ ~ logged_in_users_spec u).
Proof.
  split; [vm_compute; eauto|].
  split; [vm_compute; reflexivity|].
  split.
  - eexists. split; [reflexivity|].
    intros [(items & [= <-] & Hall)|(m & [=] & _)].
    apply Forall_cons in Hall as [_ Hall]. apply Forall_cons in Hall as [Hstray _].
    destruct Hstray as (d & [= <-] & [n Hn] & _). discriminate Hn.
  - eexists. split; [reflexivity|].
    intros [(items & [=] & _)|[s [=]]].
Qed.

(** C9, as the code has it. [running_processes] is accepted exactly when it
    is a sequence of JSON objects, whatever their keys; [logged_in_users]
    exactly when it is a sequence of user entries or a JSON object, whatever
    its keys; and a snapshot exactly when it is an object with string
    [os_name] and [os_version], a [cpu_info] its model accepts, and these
    two fields so shaped. *)
Theorem fields_accept_any_object (rt : Runtime) (v : json) :
  (is_Some (validate_running_processes v) <-> object_list v) /\
  (is_Some (validate_logged_in_users v) <-> users_or_object v) /\
  (is_Some (validate_SystemData rt v) <->
   exists d, v = JObj d /\
     (exists n, get "os_name" d = Some (JStr n)) /\
     (exists o, get "os_version" d = Some (JStr o)) /\
     (exists c, get "cpu_info" d = Some c /\ is_Some (validate_CPUInfo rt c)) /\
     (exists p, get "running_processes" d = Some p /\ object_list p) /\
     (exists u, get "logged_in_users" d = Some u /\ users_or_object u)).
Proof.
  split; [apply validate_running_processes_is_Some|].
  split; [apply validate_logged_in_users_is_Some|].
  destruct v as [| | | | | |d];
    try (split; [intros [? H]; discriminate H|intros (d & [=] & _)]).
  unfold validate_SystemData. rewrite five_fields_is_Some, !required_is_Some.
  split.
  - intros ((n & Hn & Hn') & (o & Ho & Ho') & Hc & (p & Hp & Hp') & (u & Hu & Hu')).
    exists d. split; [reflexivity|].
    apply validate_str_is_Some in Hn' as [? ->], Ho' as [? ->].
    apply validate_running_processes_is_Some in Hp'.
    apply validate_logged_in_users_is_Some in Hu'.
    split; [eauto|]. split; [eauto|]. split; [exact Hc|]. split; eauto.
  - intros (d' & [= <-] & [n Hn] & [o Ho] & Hc & (p & Hp & Hp') & (u & Hu & Hu')).
    apply (proj2 (validate_running_processes_is_Some p)) in Hp'.
    apply (proj2 (validate_logged_in_users_is_Some u)) in Hu'.
    split; [exists (JStr n); simpl; eauto|].
    split; [exists (JStr o); simpl; eauto|].
    split; [exact Hc|]. split; eauto.
Qed.

(** ** The agent's snapshot *)

Section AgentFacts.

Import Agent.

(** The only way out of [get_system_info] by exception. *)
Lemma get_system_info_raises h e :
  get_system_info h = Raises e <->
  process_iter h = Raises e /\ process_handler_catches (exc_class e) = false.
Proof.
  unfold get_system_info, read_processes.
  destruct (process_iter h) as [ps|e']; simpl.
  - split; [discriminate|]. now intros [H _].
  - destruct (process_handler_catches (exc_class e')) eqn:Hc; simpl.
    + split; [discriminate|]. intros [[= ->] H]. congruence.
    + split; [intros [= ->]; auto|]. now intros [[= ->] _].
Qed.

(** Otherwise it returns a dict with the five keys. *)
Lemma get_system_info_returns h :
  (forall e, process_iter h = Raises e ->
             process_handler_catches (exc_class e) = true) ->
  exists d, get_system_info h = Returns (JObj d) /\ fst <$> d = declared_fields.
Proof.
  intros Hcaught. unfold get_system_info, read_processes.
  destruct (process_iter h) as [ps|e]; simpl.
  - eexists. split; reflexivity.
  - rewrite (Hcaught e eq_refl). simpl. eexists. split; reflexivity.
Qed.

Lemma read_cpu_info_valid rt h :
  is_Some (validate_CPUInfo rt
             (try_except (read_cpu_info h) (fun e => error_marker (exc_str e)))).
Proof.
  unfold read_cpu_info.
  destruct (cpu_count_physical h) as [[pc|]|]; simpl; eauto;
    destruct (cpu_count_logical h) as [[tc|]|]; simpl; eauto;
    destruct (cpu_freq_test h) as [[t|]|]; simpl; eauto;
    try (destruct (cpu_freq_read h) as [[r|]|]; simpl; eauto);
    destruct (cpu_percent h) as [up|]; simpl; eauto.
Qed.

Lemma read_processes_valid h p :
  read_processes h = Returns p -> is_Some (validate_running_processes p).
Proof.
  unfold read_processes. intros H.
  apply validate_running_processes_is_Some. unfold object_list.
  destruct (process_iter h) as [ps|e].
  - injection H as <-. eexists. split; [reflexivity|].
    apply Forall_fmap, Forall_forall. now intros x _.
  - destruct (process_handler_catches (exc_class e)); [|discriminate H].
    injection H as <-. eexists. split; [reflexivity|]. now repeat constructor.
Qed.

Lemma read_users_valid h :
  is_Some (validate_logged_in_users
             (try_except (a ← users h; Returns (JArr (session_entry <$> a)))
                         (fun e => error_marker (exc_str e)))).
Proof.
  apply validate_logged_in_users_is_Some. unfold users_or_object.
  destruct (users h) as [a|e]; simpl; [right|left; eauto].
  eexists. split; [reflexivity|].
  apply Forall_fmap, Forall_forall. intros u _.
  apply validate_UserInfo_is_Some. unfold validate_UserInfo, session_entry.
  destruct (session_terminal u); simpl; eauto.
Qed.

(** The collector's model accepts every snapshot the agent builds. *)
Lemma agent_snapshot_is_valid rt h v :
  get_system_info h = Returns v -> is_Some (validate_SystemData rt v).
Proof.
  unfold get_system_info. intros H.
  destruct (read_processes h) as [p|e] eqn:Hp; [|discriminate H].
  injection H as <-. unfold validate_SystemData.
  apply five_fields_is_Some. unfold required. simpl.
  split; [eauto|]. split; [eauto|].
  split; [apply read_cpu_info_valid|].
  split; [exact (read_processes_valid h p Hp)|apply read_users_valid].
Qed.

(** The agent's [cpu_info] has four keys, or one; the stored one has five. *)
Lemma cpu_info_dump_differs h c :
  py_eq (dump_CPUInfo c)
        (try_except (read_cpu_info h) (fun e => error_marker (exc_str e))) = false.
Proof.
  unfold read_cpu_info.
  destruct (cpu_count_physical h) as [pc|]; [|reflexivity].
  destruct (cpu_count_logical h) as [tc|]; [|reflexivity].
  destruct (cpu_freq_test h) as [[t|]|]; [| |reflexivity].
  - destruct (cpu_freq_read h) as [[r|]|]; [| reflexivity | reflexivity].
    destruct (cpu_percent h) as [up|]; reflexivity.
  - destruct (cpu_percent h) as [up|]; reflexivity.
Qed.

(** So no snapshot the agent builds is stored as it was sent. *)
Lemma agent_snapshot_is_normalised h v data :
  get_system_info h = Returns v -> py_eq (model_dump data) v = false.
Proof.
  unfold get_system_info. intros H.
  destruct (read_processes h) as [p|e]; [|discriminate H].
  injection H as <-. unfold model_dump.
  change (py_eq (JObj ?m) (JObj ?m'))
    with ((length m =? length m')%nat &&
          (fix sub (l : dict) : bool :=
             match l with
             | [] => true
             | kv :: r =>
                 match get (fst kv) m' with
                 | Some v' => py_eq (snd kv) v'
                 | None => false
                 end && sub r
             end) m).
  cbn [length Nat.eqb andb get fst snd String.eqb Ascii.eqb Bool.eqb].
  rewrite cpu_info_dump_differs.
  now rewrite !andb_false_r.
Qed.

End AgentFacts.

(** C1. On a host whose three queries raise, [get_system_info] returns the
    five keys with error markers when the process listing raises one of the
    three psutil classes its handler names; when the listing raises an
    [OSError], the exception leaves the function. *)
Theorem process_listing_error_escapes :
  Agent.get_system_info Sample.host_all_denied =
    Agent.Returns
      (JObj [("os_name", JStr "Linux");
             ("os_version", JStr "#1 SMP");
             ("cpu_info", Agent.error_marker "no cpu");
             ("running_processes",
               JArr [Agent.error_marker
                       "No se pudo acceder a todos los procesos: (pid=1)"]);
             ("logged_in_users", Agent.error_marker "no utmp")]) /\
  Agent.get_system_info Sample.host_os_error =
    Agent.Raises (Sample.failure (Agent.OtherException "OSError")
                                 "[Errno 24] Too many open files").
Proof. split; reflexivity. Qed.

(** * Further properties of the code *)

(** ** The token check *)

Section TokenShape.

Lemma append_nil_r (s : string) : s +:+ EmptyString = s.
Proof.
  induction s as [|c s IH]; [reflexivity|].
  change (String c (s +:+ EmptyString) = String c s). now rewrite IH.
Qed.

(** What was split, read back from its first piece. *)
Lemma split_cons_inv sep r t l :
  Text.split sep r = t :: l ->
  (l = [] /\ r = t) \/ exists rest, r = t +:+ String sep rest.
Proof.
  revert t l; induction r as [|c r IH]; intros t l; simpl.
  - intros [= <- <-]. now left.
  - destruct (Ascii.eqb c sep) eqn:Hc.
    + apply Ascii.eqb_eq in Hc as ->. intros [= <- <-]. right. now exists r.
    + destruct (Text.split sep r) as [|h tl] eqn:Hs.
      { now apply split_nonempty in Hs. }
      intros [= <- <-]. destruct (IH h tl eq_refl) as [[-> ->]|[rest ->]].
      * now left.
      * right. now exists rest.
Qed.

Lemma verify_token_accepts_form authorization :
  authorization = "Bearer " +:+ API_TOKEN \/
  (exists rest, authorization = "Bearer " +:+ API_TOKEN +:+ " " +:+ rest) ->
  verify_token authorization = Return tt.
Proof.
  intros [->|[rest ->]]; [reflexivity|].
  unfold verify_token.
  change ("Bearer " +:+ API_TOKEN +:+ " " +:+ rest)
    with ("Bearer " +:+ (API_TOKEN +:+ " " +:+ rest)) at 1.
  rewrite startswith_app. simpl negb. cbv iota.
  change ("Bearer " +:+ API_TOKEN +:+ " " +:+ rest)
    with ("Bearer" +:+ String " " (API_TOKEN +:+ String " " rest)).
  rewrite split_app_sep by reflexivity.
  rewrite split_app_sep by reflexivity.
  reflexivity.
Qed.

Lemma verify_token_form authorization :
  verify_token authorization = Return tt ->
  authorization = "Bearer " +:+ API_TOKEN \/
  exists rest, authorization = "Bearer " +:+ API_TOKEN +:+ " " +:+ rest.
Proof.
  intros H. apply verify_token_accepts_inv in H as [Hp Ht].
  apply startswith_inv in Hp as [r ->].
  change ("Bearer " +:+ r) with ("Bearer" +:+ String " " r) in Ht.
  rewrite split_app_sep in Ht by reflexivity. simpl in Ht.
  destruct (Text.split " " r) as [|t l] eqn:Hs; [discriminate Ht|].
  simpl in Ht. injection Ht as ->.
  destruct (split_cons_inv _ _ _ _ Hs) as [[_ ->]|[rest ->]].
  - now left.
  - right. now exists rest.
Qed.

End TokenShape.

(** X1. [verify_token] lets through exactly the headers made of ["Bearer "],
    the configured token and, if anything follows, a space and any text. A
    header that does not start with ["Bearer "] gets the format message, and
    only such a header; every other refused header gets the token message. *)
Theorem verify_token_accepts_exactly (authorization : string) :
  (verify_token authorization = Return tt <->
   authorization = "Bearer " +:+ API_TOKEN \/
   exists rest, authorization = "Bearer " +:+ API_TOKEN +:+ " " +:+ rest) /\
  (verify_token authorization = Raise (HTTPException 401 "Formato de token inválido")
   <-> Text.startswith "Bearer " authorization = false) /\
  (verify_token authorization =
     Raise (HTTPException 401 "Token de autorización inválido")
   <-> Text.startswith "Bearer " authorization = true /\
       Text.split " " authorization !! 1%nat <> Some API_TOKEN).
Proof.
  split; [split; [apply verify_token_form|apply verify_token_accepts_form]|].
  pose proof (verify_token_total authorization) as Htotal.
  pose proof (verify_token_accepts_inv authorization) as Hinv.
  unfold verify_token in *.
  destruct (Text.startswith "Bearer " authorization); simpl in *.
  - split; [split; [|discriminate]|].
    + destruct (Text.split " " authorization !! 1%nat) as [t|];
        [destruct (negb (String.eqb t API_TOKEN))|]; discriminate.
    + destruct (Text.split " " authorization !! 1%nat) as [t|].
      * destruct (String.eqb t API_TOKEN) eqn:Ht; simpl in *.
        -- split; [discriminate|]. intros [_ Hne].
           destruct (Hinv eq_refl) as [_ Heq]. contradiction.
        -- split; [|reflexivity]. intros _. split; [reflexivity|].
           intros [= ->]. now rewrite String.eqb_refl in Ht.
      * destruct Htotal as [H|[d H]]; discriminate H.
  - split; [split; reflexivity|]. split; [discriminate|]. now intros [H _].
Qed.

(** ** Receiving: statuses and what is written *)

Section ReceivingFacts.

Variable rt : Runtime.

Lemma POST_collect_no_header clk req fs :
  body_is_read (body req) = true ->
  authorization req = None ->
  POST_collect rt clk req fs = (RequestValidationError, fs).
Proof. intros Hb Ha. rewrite (POST_collect_read _ _ _ _ Hb). now rewrite Ha. Qed.

(** The five ways a request can go. *)
Lemma POST_collect_cases clk req fs :
  (body_is_read (body req) = false /\
   POST_collect rt clk req fs =
   (match body req with
    | ParsingError => HTTPError 400 "There was an error parsing the body"
    | _ => RequestValidationError
    end, fs)) \/
  (body_is_read (body req) = true /\ authorization req = None /\
   POST_collect rt clk req fs = (RequestValidationError, fs)) \/
  (exists h detail, body_is_read (body req) = true /\ authorization req = Some h /\
     verify_token h = Raise (HTTPException 401 detail) /\
     POST_collect rt clk req fs = (HTTPError 401 detail, fs)) \/
  (exists h, body_is_read (body req) = true /\ authorization req = Some h /\
     verify_token h = Return tt /\
     validate_body rt (body req) = None /\
     POST_collect rt clk req fs = (RequestValidationError, fs)) \/
  (exists h data, body_is_read (body req) = true /\ authorization req = Some h /\
     verify_token h = Return tt /\
     validate_body rt (body req) = Some data /\
     POST_collect rt clk req fs =
     (OK (JObj [("status", JStr "success");
                ("message", JStr ("Datos recibidos de " +:+ client_host req))]),
      append_text fs (partition_file (client_host req) (today_date clk))
        (json_dumps rt (stored_record (now_isoformat clk) data)
         +:+ String Text.LF EmptyString))).
Proof.
  destruct (body_is_read (body req)) eqn:Hb.
  - right. destruct (authorization req) as [h|] eqn:Ha.
    + right. destruct (verify_token_total h) as [Hok|[detail Hko]].
      * right. destruct (validate_body rt (body req)) as [data|] eqn:Hd.
        -- right. exists h, data. repeat split; try assumption.
           now apply POST_collect_accepted with h.
        -- left. exists h. repeat split; try assumption.
           now apply POST_collect_invalid with h.
      * left. exists h, detail. repeat split; try assumption.
        now apply POST_collect_rejected with h.
    + left. repeat split. now apply POST_collect_no_header.
  - left. split; [reflexivity|]. now apply POST_collect_unread.
Qed.

Lemma validate_SystemData_needs d k :
  k ∈ declared_fields -> get k d = None -> validate_SystemData rt (JObj d) = None.
Proof.
  intros Hk Hget.
  destruct (validate_SystemData rt (JObj d)) as [data|] eqn:Hv; [|reflexivity].
  exfalso.
  assert (Hsome : is_Some (validate_SystemData rt (JObj d))) by eauto.
  unfold validate_SystemData in Hsome.
  apply five_fields_is_Some in Hsome as (H1 & H2 & H3 & H4 & H5).
  apply required_is_Some in H1 as (? & H1 & _), H2 as (? & H2 & _),
    H3 as (? & H3 & _), H4 as (? & H4 & _), H5 as (? & H5 & _).
  unfold declared_fields in Hk.
  repeat (apply elem_of_cons in Hk as [->|Hk]; [congruence|]).
  now apply not_elem_of_nil in Hk.
Qed.

End ReceivingFacts.


(** X3. A request only ever appends: every file but the sender's partition of
    the day is left as it is, the text of that partition is kept as the
    beginning of its new text, a request that is not answered 200 changes
    nothing, and one answered 200 adds exactly the line of its record. *)
Theorem collect_only_appends (rt : Runtime) (clk : Clock) (req : Request)
    (fs : storage) :
  (forall f, f <> partition_file (client_host req) (today_date clk) ->
     (POST_collect rt clk req fs).2 !! f = fs !! f) /\
  (exists suffix,
     file_text (POST_collect rt clk req fs).2
               (partition_file (client_host req) (today_date clk))
     = file_text fs (partition_file (client_host req) (today_date clk))
       +:+ suffix) /\
  (status (POST_collect rt clk req fs).1 <> 200 ->
     (POST_collect rt clk req fs).2 = fs) /\
  (status (POST_collect rt clk req fs).1 = 200 ->
     exists data, validate_body rt (body req) = Some data /\
       (POST_collect rt clk req fs).2
         !! partition_file (client_host req) (today_date clk)
       = Some (file_text fs (partition_file (client_host req) (today_date clk))
               +:+ json_dumps rt (stored_record (now_isoformat clk) data)
               +:+ String Text.LF EmptyString)).
Proof.
  assert (Hsame : forall r, status r <> 200 ->
    (forall f, f <> partition_file (client_host req) (today_date clk) ->
       (r, fs).2 !! f = fs !! f) /\
    (exists suffix,
       file_text (r, fs).2 (partition_file (client_host req) (today_date clk))
       = file_text fs (partition_file (client_host req) (today_date clk))
         +:+ suffix) /\
    (status (r, fs).1 <> 200 -> (r, fs).2 = fs) /\
    (status (r, fs).1 = 200 ->
       exists data, validate_body rt (body req) = Some data /\
         (r, fs).2 !! partition_file (client_host req) (today_date clk)
         = Some (file_text fs (partition_file (client_host req) (today_date clk))
                 +:+ json_dumps rt (stored_record (now_isoformat clk) data)
                 +:+ String Text.LF EmptyString))).
  { intros r Hr. split; [reflexivity|].
    split; [exists EmptyString; now rewrite append_nil_r|].
    split; [reflexivity|]. intros H. now contradiction Hr. }
  destruct (POST_collect_cases rt clk req fs)
    as [[Hb ->]|[(Hb & Ha & ->)|[(h & d & Hb & Ha & Hv & ->)
       |[(h & Hb & Ha & Hv & Hd & ->)|(h & data & Hb & Ha & Hv & Hd & ->)]]]];
    try (apply Hsame; simpl; discriminate).
  - apply Hsame. destruct (body req); simpl; discriminate.
  - cbn [fst snd].
    split; [intros f Hf; unfold append_text; now rewrite lookup_insert_ne|].
    split.
    + eexists. unfold file_text at 1, append_text. rewrite lookup_insert_eq.
      reflexivity.
    + split; [intros H; now contradiction H|]. intros _. exists data.
      split; [assumption|]. unfold append_text. now rewrite lookup_insert_eq.
Qed.



(** ** Several requests, then a query *)

Section ReplayFacts.

Variable rt : Runtime.

(** The first line of a text, when it has no terminator of its own. *)
Lemma lines_from_line cur s rest :
  Text.lacks Text.LF s = true -> Text.lacks Text.CR s = true ->
  Text.lines_from cur (s +:+ String Text.LF rest) =
  (cur +:+ s +:+ String Text.LF EmptyString) :: Text.lines_from EmptyString rest.
Proof.
  revert cur; induction s as [|c s IH]; intros cur Hlf Hcr; simpl in *.
  - reflexivity.
  - apply andb_prop in Hlf as [Hc1 Hlf]. apply andb_prop in Hcr as [Hc2 Hcr].
    apply negb_true_iff in Hc1, Hc2. rewrite Hc1, Hc2.
    rewrite (IH _ Hlf Hcr), append_assoc. reflexivity.
Qed.

Lemma readlines_written_text items :
  Forall (accepted_item rt) items ->
  Text.readlines (written_text rt items) =
  (fun i => json_dumps rt (item_record i) +:+ String Text.LF EmptyString) <$> items.
Proof.
  unfold Text.readlines.
  induction 1 as [|i items (_ & _ & Hlf & Hcr & _) _ IH]; [reflexivity|].
  simpl. rewrite append_assoc.
  change (String Text.LF EmptyString +:+ written_text rt items)
    with (String Text.LF (written_text rt items)).
  rewrite (lines_from_line EmptyString _ _ Hlf Hcr), IH. reflexivity.
Qed.

Lemma records_of_written_lines items :
  Forall (accepted_item rt) items ->
  records_before_error rt
    ((fun i => json_dumps rt (item_record i) +:+ String Text.LF EmptyString) <$> items)
  = item_record <$> items.
Proof.
  induction 1 as [|i items (_ & Ha & _ & _ & Hnb & Hload) _ IH]; [reflexivity|].
  rewrite !fmap_cons. cbn [records_before_error].
  rewrite (nonblank_ascii_app _ _ Ha Hnb), Hload, IH. reflexivity.
Qed.

Lemma written_text_ascii items :
  Forall (accepted_item rt) items -> Text.isascii (written_text rt items) = true.
Proof.
  induction 1 as [|i items (_ & Hrt) _ IH]; [reflexivity|].
  simpl. now rewrite isascii_app, (written_line_ascii rt _ Hrt).
Qed.

(** Writing to a file that is there does not change what matches. *)
Lemma glob_insert_existing fs p x pattern :
  is_Some (fs !! p) -> glob rt (<[p := x]> fs) pattern = glob rt fs pattern.
Proof. intros Hp. unfold glob. now rewrite dom_insert_lookup_L. Qed.

Lemma POST_collect_all_existing header ip today items : forall fs text,
  verify_token header = Return tt ->
  fs !! partition_file ip today = Some text ->
  glob rt fs (search_pattern ip) = [partition_file ip today] ->
  Forall (accepted_item rt) items ->
  Forall (fun r => status r = 200)
         (POST_collect_all rt (item_call header ip today <$> items) fs).1 /\
  (POST_collect_all rt (item_call header ip today <$> items) fs).2
    !! partition_file ip today = Some (text +:+ written_text rt items) /\
  glob rt (POST_collect_all rt (item_call header ip today <$> items) fs).2
       (search_pattern ip) = [partition_file ip today].
Proof.
  induction items as [|i items IH]; intros fs text Hv Hp Hglob Hall.
  - simpl. rewrite append_nil_r. auto.
  - apply Forall_cons in Hall as [[Hd Hrt] Hall].
    cbn [fmap list_fmap POST_collect_all item_call].
    rewrite (POST_collect_accepted rt
               {| today_date := today; now_isoformat := i.1.1 |}
               {| authorization := Some header; body := Json i.1.2; client_host := ip |}
               fs header i.2 eq_refl Hv Hd).
    cbn [client_host today_date now_isoformat].
    unfold append_text. rewrite Hp. cbn [default].
    set (fs1 := <[partition_file ip today := _]> fs).
    destruct (IH fs1 (text +:+ json_dumps rt (stored_record i.1.1 i.2)
                      +:+ String Text.LF EmptyString)) as (H200 & Htext & Hg);
      try assumption.
    { unfold fs1. now rewrite lookup_insert_eq. }
    { unfold fs1. rewrite glob_insert_existing by eauto. exact Hglob. }
    destruct (POST_collect_all rt _ fs1) as [rs fs2]. simpl in *.
    split; [constructor; [reflexivity|assumption]|].
    split; [|assumption].
    rewrite Htext. f_equal. unfold item_record. now rewrite !append_assoc.
Qed.

End ReplayFacts.



(** ** One address's requests and another address's query *)

Section IsolationFacts.

Variable rt : Runtime.

Lemma read_files_insert_ne fs p x files acc :
  p ∉ files -> read_files rt (<[p := x]> fs) files acc = read_files rt fs files acc.
Proof.
  revert acc; induction files as [|g files IH]; intros acc Hp; simpl; [reflexivity|].
  apply not_elem_of_cons in Hp as [Hne Hp].
  rewrite lookup_insert_ne by done.
  destruct (open_fails rt g); [now apply IH|].
  destruct (fs !! g); now apply IH.
Qed.

(** A file whose name does not match is not among the files found. *)
Lemma glob_unmatched fs p pattern :
  fnmatch rt p pattern = false -> p ∉ glob rt fs pattern.
Proof.
  intros Hno Hin. apply glob_elem in Hin as [Hcond _].
  rewrite Hno, andb_false_r in Hcond. discriminate.
Qed.

Lemma glob_insert_unmatched fs p x pattern :
  fnmatch rt p pattern = false ->
  glob rt (<[p := x]> fs) pattern ≡ₚ glob rt fs pattern.
Proof.
  intros Hno. apply NoDup_Permutation; try apply glob_NoDup.
  intros f. rewrite !glob_elem.
  destruct (decide (f = p)) as [->|Hne].
  - rewrite Hno, andb_false_r. split; intros [H _]; discriminate H.
  - now rewrite lookup_insert_ne.
Qed.

Lemma query_data_insert_unmatched fs p x ip :
  fnmatch rt p (search_pattern ip) = false ->
  query_data rt (<[p := x]> fs) ip = query_data rt fs ip.
Proof.
  intros Hno. pose proof (glob_insert_unmatched fs p x _ Hno) as Hperm.
  destruct (glob rt fs (search_pattern ip)) as [|g gs] eqn:Hg.
  - apply Permutation_nil_r in Hperm.
    now rewrite !query_data_not_found.
  - assert (Hne : glob rt (<[p := x]> fs) (search_pattern ip) <> []).
    { intros E. rewrite E in Hperm. now apply Permutation_nil_cons in Hperm. }
    assert (Hne' : glob rt fs (search_pattern ip) <> []) by now rewrite Hg.
    rewrite (query_data_found _ _ _ Hne), (query_data_found _ _ _ Hne').
    assert (Hfiles : files_read rt (<[p := x]> fs) ip = files_read rt fs ip).
    { unfold files_read. apply sorted_reverse_unique; [|apply sorted_reverse_sorted].
      rewrite sorted_reverse_Permutation, Hperm, Hg. reflexivity. }
    rewrite Hfiles, read_files_insert_ne; [reflexivity|].
    intros Hin. apply files_read_elem in Hin. now apply glob_unmatched in Hin.
Qed.

End IsolationFacts.

(** X6. A request of one address does not change what a query for another
    address gives, as long as the sender's partition name does not match the
    other address's pattern. *)
Theorem collect_leaves_other_queries (rt : Runtime) (clk : Clock) (req : Request)
    (fs : storage) (ip : string) :
  fnmatch rt (partition_file (client_host req) (today_date clk))
             (search_pattern ip) = false ->
  GET_query rt (POST_collect rt clk req fs).2 ip = GET_query rt fs ip.
Proof.
  intros Hno.
  destruct (POST_collect_cases rt clk req fs)
    as [[Hb ->]|[(Hb & Ha & ->)|[(h & d & Hb & Ha & Hv & ->)
       |[(h & Hb & Ha & Hv & Hd & ->)|(h & data & Hb & Ha & Hv & Hd & ->)]]]];
    try reflexivity.
  unfold GET_query. cbn [snd]. unfold append_text.
  now rewrite query_data_insert_unmatched.
Qed.

Lemma collect_leaves_other_queries_witness :
  GET_query py
    (POST_collect py Sample.clock (Sample.request Sample.bearer Sample.snapshot)
                  Sample.fs_two_days).2 "10.0.0.7"
  = GET_query py Sample.fs_two_days "10.0.0.7".
Proof.
  apply (collect_leaves_other_queries py Sample.clock
           (Sample.request Sample.bearer Sample.snapshot) Sample.fs_two_days
           "10.0.0.7").
  vm_compute. reflexivity.
Defined.

(** ** The address as a pattern *)

Section PatternFacts.

Lemma fnmatch_star_partition ip today :
  Ref.fnmatch (partition_file ip today) (search_pattern "*") = true.
Proof.
  unfold Ref.fnmatch, partition_file.
  change (search_pattern "*") with (String "*" ("_" +:+ "*.jsonl")).
  change (String.length (String "*" ("_" +:+ "*.jsonl"))) with 9%nat.
  apply wild_star; [reflexivity|].
  change ("_" +:+ today +:+ ".jsonl") with ("_" +:+ (today +:+ ".jsonl")).
  rewrite (wild_literal "_" _ _ 8 eq_refl).
  apply wild_star; reflexivity.
Qed.

Lemma partition_file_not_hidden ip today :
  Text.startswith "." ip = false -> ishidden (partition_file ip today) = false.
Proof. destruct ip; [reflexivity|exact (fun H => H)]. Qed.

Lemma records_before_error_app rt before rest :
  Forall (parses rt) before ->
  records_before_error rt (before ++ rest) =
  all_records rt before ++ records_before_error rt rest.
Proof.
  induction 1 as [|l lines Hl _ IH]; [reflexivity|].
  rewrite all_records_cons. simpl. unfold parses in Hl.
  destruct (Text.nonblank l); [|exact IH].
  destruct (Hl eq_refl) as [r ->]. simpl. now rewrite IH.
Qed.

End PatternFacts.

(** X7. The address of a query is used as a pattern. With file names matched
    as [fnmatch] does, the query for [*] finds the partition of every
    address whose name does not start with a dot, is not answered 404 when
    there is one, and the handler's list holds what it reads from that
    partition. *)
Theorem star_query_reads_every_address (fs : storage) (ip today : string) :
  is_Some (fs !! partition_file ip today) ->
  Text.startswith "." ip = false ->
  partition_file ip today ∈ files_read py fs "*" /\
  status (GET_query py fs "*") <> 404 /\
  exists before after,
    query_data py fs "*" =
    Return (before ++
            records_before_error py (file_lines py fs (partition_file ip today)) ++
            after).
Proof.
  intros Hfile Hip.
  assert (Hin : partition_file ip today ∈ glob py fs (search_pattern "*")).
  { apply glob_elem. split; [|exact Hfile].
    rewrite (partition_file_not_hidden ip today Hip).
    change (fnmatch py) with Ref.fnmatch. now rewrite fnmatch_star_partition. }
  split; [unfold files_read; now apply sorted_reverse_elem|].
  destruct (read_around py fs "*" _ Hin) as (newer & older & _ & Hq).
  split; [|eauto].
  unfold GET_query. rewrite Hq. destruct (forallb _ _); discriminate.
Qed.

Lemma star_query_reads_every_address_witness :
  files_read py Sample.fs_two_days "*" = [Sample.other; Sample.day2; Sample.day1] /\
  Sample.other ∈ files_read py Sample.fs_two_days "*".
Proof.
  split; [vm_compute; reflexivity|].
  apply (star_query_reads_every_address Sample.fs_two_days "10.0.0.7" "2024-01-02").
  - vm_compute. eauto.
  - reflexivity.
Defined.

(** X8. A line that parses to something other than a JSON object, read from
    a matching file before any line that does not parse, makes the whole
    query fail with 500: the handler's list does not fit its declared
    response model. *)
Theorem scalar_line_breaks_query (rt : Runtime) (fs : storage) (ip f : string)
    (before : list string) (line : string) (after : list string) (v : json) :
  f ∈ glob rt fs (search_pattern ip) ->
  file_lines rt fs f = before ++ line :: after ->
  Forall (parses rt) before ->
  Text.nonblank line = true ->
  json_loads rt line = Some v ->
  is_dict v = false ->
  GET_query rt fs ip = InternalServerError.
Proof.
  intros Hf Hlines Hbefore Hnb Hload Hv.
  destruct (read_around rt fs ip f Hf) as (newer & older & _ & Hq).
  unfold GET_query. rewrite Hq, Hlines, (records_before_error_app rt _ _ Hbefore).
  simpl. rewrite Hnb, Hload.
  rewrite !forallb_app. simpl. rewrite Hv.
  now rewrite andb_false_r, andb_false_r.
Qed.

Lemma scalar_line_breaks_query_witness :
  GET_query py Sample2.fs_scalar_line "1.2.3.4" = InternalServerError.
Proof.
  apply (scalar_line_breaks_query py Sample2.fs_scalar_line "1.2.3.4" Sample.day1
           [Sample.line Sample.e1] (Sample.line (JInt 5)) [Sample.line Sample.e2]
           (JInt 5)).
  - by_running.
  - vm_compute. reflexivity.
  - by_running.
  - vm_compute. reflexivity.
  - vm_compute. reflexivity.
  - reflexivity.
Defined.

(** ** Validating what was stored *)

Section RevalidationFacts.

Variable rt : Runtime.

Lemma validate_CPUInfo_dump c : validate_CPUInfo rt (dump_CPUInfo c) = Some c.
Proof. destruct c as [[pc|] [tc|] [[q|s]|] [up|] [er|]]; reflexivity. Qed.

Lemma validate_ProcessInfo_dump p :
  validate_ProcessInfo (dump_ProcessInfo p) = Some p.
Proof. destruct p as [n s [u|]]; reflexivity. Qed.

Lemma validate_UserInfo_dump u : validate_UserInfo (dump_UserInfo u) = Some u.
Proof. destruct u as [n [t|]]; reflexivity. Qed.

(** Whichever member the union keeps, it keeps the same one for the dump. *)
Lemma validate_process_item_dump x i :
  validate_process_item x = Some i ->
  validate_process_item (dump_process_item i) = Some i.
Proof.
  destruct x as [| | | | | |d]; try discriminate.
  unfold validate_process_item at 1.
  destruct (validate_ProcessInfo (JObj d)) as [p|] eqn:Hp; intros [= <-].
  - pose proof (validate_ProcessInfo_dump p) as E.
    unfold dump_process_item, dump_ProcessInfo in *.
    unfold validate_process_item. now rewrite E.
  - unfold dump_process_item, validate_process_item. now rewrite Hp.
Qed.

Lemma required_Some {A} (f : json -> option A) d k a :
  required f d k = Some a -> exists v, get k d = Some v /\ f v = Some a.
Proof. unfold required. destruct (get k d) as [v|]; [eauto|discriminate]. Qed.

Lemma validate_running_processes_dump v ps :
  validate_running_processes v = Some ps ->
  validate_running_processes (JArr (dump_process_item <$> ps)) = Some ps.
Proof.
  destruct v as [| | | | |items|]; try discriminate.
  unfold validate_running_processes. intros H.
  apply mapM_fmap_Forall_Some. apply mapM_Some in H.
  induction H as [|x i items ps Hx _ IH]; constructor; [|exact IH].
  exact (validate_process_item_dump x i Hx).
Qed.

Lemma validate_logged_in_users_dump u :
  validate_logged_in_users (dump_users u) = Some u.
Proof.
  destruct u as [l|d]; [|reflexivity].
  unfold dump_users, validate_logged_in_users.
  rewrite mapM_fmap_Some; [reflexivity|]. exact validate_UserInfo_dump.
Qed.

Lemma validate_model_dump data :
  validate_SystemData rt (model_dump data) =
  c ← validate_CPUInfo rt (dump_CPUInfo (cpu_info data));
  p ← validate_running_processes
        (JArr (dump_process_item <$> running_processes data));
  u ← validate_logged_in_users (dump_users (logged_in_users data));
  Some {| os_name := os_name data; os_version := os_version data;
          cpu_info := c; running_processes := p; logged_in_users := u |}.
Proof. reflexivity. Qed.

Lemma validate_SystemData_dump b data :
  validate_SystemData rt b = Some data ->
  validate_SystemData rt (model_dump data) = Some data.
Proof.
  destruct b as [| | | | | |d]; try discriminate. intros H.
  unfold validate_SystemData in H.
  repeat (match type of H with
          | (?m ≫= _) = Some _ =>
              let E := fresh "E" in destruct m eqn:E; cbn in H; [|discriminate H]
          end).
  injection H as <-. rewrite validate_model_dump. cbn [cpu_info running_processes
    logged_in_users os_name os_version].
  rewrite validate_CPUInfo_dump, validate_logged_in_users_dump.
  match goal with
  | E : required validate_running_processes _ _ = Some _ |- _ =>
      apply required_Some in E as (v & _ & E);
      rewrite (validate_running_processes_dump _ _ E)
  end.
  reflexivity.
Qed.

End RevalidationFacts.

(** X9. The payload the collector stores for a body is itself a body its
    model accepts, and validates to the same model: posted in its turn, it
    is answered and stored exactly as the body it was stored for. *)
Theorem stored_payload_is_accepted_unchanged (rt : Runtime) (clk : Clock)
    (fs : storage) (header ip : string) (b : json) (data : SystemData) :
  verify_token header = Return tt ->
  validate_SystemData rt b = Some data ->
  validate_SystemData rt (model_dump data) = Some data /\
  POST_collect rt clk
    {| authorization := Some header; body := Json (model_dump data);
       client_host := ip |} fs
  = POST_collect rt clk
      {| authorization := Some header; body := Json b; client_host := ip |} fs.
Proof.
  intros Hv Hb. pose proof (validate_SystemData_dump rt b data Hb) as Hd.
  split; [exact Hd|].
  rewrite (POST_collect_accepted rt clk
             {| authorization := Some header; body := Json (model_dump data);
                client_host := ip |} fs header data eq_refl Hv Hd).
  rewrite (POST_collect_accepted rt clk
             {| authorization := Some header; body := Json b; client_host := ip |}
             fs header data eq_refl Hv Hb).
  reflexivity.
Qed.

Lemma stored_payload_is_accepted_unchanged_witness :
  (validate_SystemData py (model_dump Sample.snapshot_model)
   = Some Sample.snapshot_model /\
   POST_collect py Sample.clock
     (Sample.request Sample.bearer (model_dump Sample.snapshot_model))
     Sample.fs_two_days
   = POST_collect py Sample.clock (Sample.request Sample.bearer Sample.snapshot)
       Sample.fs_two_days) /\
  (model_dump Sample2.model_pid_as_text = Sample2.payload_pid_as_text /\
   POST_collect py Sample.clock
     (Sample.request Sample.bearer Sample2.payload_pid_as_text) Sample.fs_two_days
   = POST_collect py Sample.clock
       (Sample.request Sample.bearer Sample2.snapshot_pid_as_text)
       Sample.fs_two_days).
Proof.
  split.
  - apply (stored_payload_is_accepted_unchanged py Sample.clock Sample.fs_two_days
             Sample.bearer "1.2.3.4" Sample.snapshot Sample.snapshot_model).
    + reflexivity.
    + vm_compute. reflexivity.
  - split; [reflexivity|].
    apply (stored_payload_is_accepted_unchanged py Sample.clock Sample.fs_two_days
             Sample.bearer "1.2.3.4" Sample2.snapshot_pid_as_text
             Sample2.model_pid_as_text).
    + reflexivity.
    + vm_compute. reflexivity.
Defined.

(** ** The snapshot, whatever the host answers *)

Section SnapshotShape.

Import Agent.

Lemma cpu_info_shape h :
  let c := try_except (read_cpu_info h) (fun e => error_marker (exc_str e)) in
  (exists e, read_cpu_info h = Raises e /\ c = error_marker (exc_str e)) \/
  (fst <$> members c =
   ["physical_cores"; "total_cores"; "frequency"; "usage_percent"]).
Proof.
  unfold read_cpu_info.
  destruct (cpu_count_physical h) as [pc|]; [|left; eexists; split; reflexivity].
  destruct (cpu_count_logical h) as [tc|]; [|left; eexists; split; reflexivity].
  destruct (cpu_freq_test h) as [[t|]|]; [| |left; eexists; split; reflexivity].
  - destruct (cpu_freq_read h) as [[r|]|];
      [|left; eexists; split; reflexivity|left; eexists; split; reflexivity].
    destruct (cpu_percent h) as [up|];
      [right; reflexivity|left; eexists; split; reflexivity].
  - destruct (cpu_percent h) as [up|];
      [right; reflexivity|left; eexists; split; reflexivity].
Qed.

Lemma session_entry_is_user_entry u : user_entry (session_entry u).
Proof.
  apply validate_UserInfo_is_Some. unfold validate_UserInfo, session_entry.
  destruct (session_terminal u); simpl; eauto.
Qed.

Lemma users_shape h :
  logged_in_users_spec
    (try_except (a ← users h; Returns (JArr (session_entry <$> a)))
                (fun e => error_marker (exc_str e))).
Proof.
  destruct (users h) as [a|e]; simpl.
  - left. eexists. split; [reflexivity|].
    apply Forall_fmap, Forall_forall. intros u _. apply session_entry_is_user_entry.
  - right. eexists. reflexivity.
Qed.

End SnapshotShape.

(** X10. An exception leaves [get_system_info] exactly when the process
    listing raises one of a class its handler does not name; failures of the
    processor and session queries never do. What it returns has the five
    keys in their order, the platform's two strings, a [cpu_info] that is an
    error marker or has all four figures, the processes of the listing or one
    marker with the listing's error, and the sessions or a marker. *)
Theorem snapshot_escapes_only_from_listing (h : Agent.Host) :
  (forall e, Agent.get_system_info h = Agent.Raises e <->
     Agent.process_iter h = Agent.Raises e /\
     Agent.process_handler_catches (Agent.exc_class e) = false) /\
  (forall v, Agent.get_system_info h = Agent.Returns v ->
     exists c p u,
       v = JObj [("os_name", JStr (Agent.platform_system h));
                 ("os_version", JStr (Agent.platform_version h));
                 ("cpu_info", c); ("running_processes", p);
                 ("logged_in_users", u)] /\
       ((exists e, Agent.read_cpu_info h = Agent.Raises e /\
                   c = Agent.error_marker (Agent.exc_str e)) \/
        fst <$> members c =
          ["physical_cores"; "total_cores"; "frequency"; "usage_percent"]) /\
       ((exists ps, Agent.process_iter h = Agent.Returns ps /\
                    p = JArr (Agent.process_entry <$> ps)) \/
        (exists e, Agent.process_iter h = Agent.Raises e /\
           Agent.process_handler_catches (Agent.exc_class e) = true /\
           p = JArr [Agent.error_marker
                       ("No se pudo acceder a todos los procesos: "
                        +:+ Agent.exc_str e)])) /\
       logged_in_users_spec u).
Proof.
  split; [intros e; apply get_system_info_raises|].
  intros v H. unfold Agent.get_system_info in H.
  destruct (Agent.read_processes h) as [p|e] eqn:Hp; [|discriminate H].
  injection H as <-. do 3 eexists. split; [reflexivity|].
  split; [apply cpu_info_shape|]. split; [|apply users_shape].
  unfold Agent.read_processes in Hp.
  destruct (Agent.process_iter h) as [ps|e].
  - injection Hp as <-. left. eauto.
  - destruct (Agent.process_handler_catches (Agent.exc_class e)) eqn:Hc;
      [|discriminate Hp].
    injection Hp as <-. right. eauto.
Qed.

(** X11. Whatever the host answers, a snapshot the agent builds, sent with
    the headers the agent sends, is accepted by the collector: the token
    check passes, the body validates, the answer is the acknowledgement and
    one line is appended to the sender's partition of the day. The payload
    of that line is never equal to the snapshot sent. *)
Theorem agent_snapshot_is_collected (rt : Runtime) (clk : Clock) (fs : storage)
    (ip : string) (h : Agent.Host) (v : json) :
  Agent.get_system_info h = Agent.Returns v ->
  exists data,
    validate_SystemData rt v = Some data /\
    py_eq (model_dump data) v = false /\
    POST_collect rt clk
      {| authorization :=
           Delivery.header_value "Authorization" Delivery.request_headers;
         body := Json v; client_host := ip |} fs
    = (OK (JObj [("status", JStr "success");
                 ("message", JStr ("Datos recibidos de " +:+ ip))]),
       append_text fs (partition_file ip (today_date clk))
         (json_dumps rt (stored_record (now_isoformat clk) data)
          +:+ String Text.LF EmptyString)).
Proof.
  intros H. destruct (agent_snapshot_is_valid rt h v H) as [data Hd].
  exists data. split; [exact Hd|].
  split; [exact (agent_snapshot_is_normalised h v data H)|].
  exact (POST_collect_accepted rt clk
           {| authorization :=
                Delivery.header_value "Authorization" Delivery.request_headers;
              body := Json v; client_host := ip |} fs
           ("Bearer " +:+ Delivery.API_TOKEN) data eq_refl eq_refl Hd).
Qed.

Lemma agent_snapshot_is_collected_witness :
  exists data,
    validate_SystemData py Sample.snapshot = Some data /\
    py_eq (model_dump data) Sample.snapshot = false /\
    POST_collect py Sample.clock
      {| authorization :=
           Delivery.header_value "Authorization" Delivery.request_headers;
         body := Json Sample.snapshot; client_host := "1.2.3.4" |} ∅
    = (OK (JObj [("status", JStr "success");
                 ("message", JStr ("Datos recibidos de " +:+ "1.2.3.4"))]),
       append_text ∅ (partition_file "1.2.3.4" (today_date Sample.clock))
         (json_dumps py (stored_record (now_isoformat Sample.clock) data)
          +:+ String Text.LF EmptyString)).
Proof.
  apply (agent_snapshot_is_collected py Sample.clock ∅ "1.2.3.4" Sample.host
           Sample.snapshot).
  reflexivity.
Defined.

(** ** Sending *)

Section SendingFacts.

Import Delivery.

Lemma raise_for_status_None r :
  raise_for_status r = None <-> ~ (400 <= status_code r < 600)%Z.
Proof.
  unfold raise_for_status.
  destruct (Z.leb_spec 400 (status_code r)), (Z.ltb_spec (status_code r) 600);
    simpl; split; intros Hx;
    first [discriminate Hx | reflexivity | lia | exfalso; lia].
Qed.

Lemma raise_for_status_Some r e :
  raise_for_status r = Some e <->
  (400 <= status_code r < 600)%Z /\ e = StatusError (status_code r).
Proof.
  unfold raise_for_status.
  destruct (Z.leb_spec 400 (status_code r)), (Z.ltb_spec (status_code r) 600);
    simpl; split;
    first [ discriminate
          | intros [= <-]; split; [lia|reflexivity]
          | intros [Hr ->]; first [reflexivity | exfalso; lia] ].
Qed.

End SendingFacts.

(** X12. [send_data_to_api] makes one call, to the configured address with
    the snapshot as body, and leaves the network as that call left it. It
    reports success exactly when the answer's status is outside 400..599 and
    its body decodes; an answer with a status in 400..599 is reported as an
    error of the API with that status, whatever its body; and only an
    exception that is not a request exception is reported as unexpected. *)
Theorem send_reports_by_cause {World : Type}
    (post : Delivery.PostCall -> World -> Delivery.post_result * World)
    (data : json) (w : World) :
  let call := {| Delivery.url := Delivery.API_URL; Delivery.json_body := data;
                 Delivery.headers := Delivery.request_headers;
                 Delivery.timeout := 15 |} in
  (Delivery.send_data_to_api post data w).2 = (post call w).2 /\
  (forall ack,
     (Delivery.send_data_to_api post data w).1 = Delivery.Sent ack <->
     exists r, (post call w).1 = Delivery.Responds r /\
               ~ (400 <= Delivery.status_code r < 600)%Z /\
               Delivery.decoded r = inl ack) /\
  (forall r, (post call w).1 = Delivery.Responds r ->
     (400 <= Delivery.status_code r < 600)%Z ->
     (Delivery.send_data_to_api post data w).1
     = Delivery.ApiError (Delivery.StatusError (Delivery.status_code r))) /\
  (forall e,
     (Delivery.send_data_to_api post data w).1 = Delivery.OtherError e ->
     Delivery.is_request_exception e = false /\
     ((post call w).1 = Delivery.Fails e \/
      exists r, (post call w).1 = Delivery.Responds r /\
                Delivery.decoded r = inr e)).
Proof.
  intros call. unfold Delivery.send_data_to_api. fold call.
  destruct (post call w) as [[r|e] w']; cbn [fst snd].
  - split; [reflexivity|].
    destruct (Delivery.raise_for_status r) as [e|] eqn:Hs.
    + apply raise_for_status_Some in Hs as [Hr ->]. cbn.
      split; [|split].
      * intros ack. split; [discriminate|]. intros (r' & [= <-] & Hn & _). lia.
      * intros r' [= <-] _. reflexivity.
      * discriminate.
    + apply raise_for_status_None in Hs.
      split; [|split].
      * intros ack. split.
        -- destruct (Delivery.decoded r) as [a|e] eqn:Hd.
           ++ intros [= <-]. eauto.
           ++ destruct (Delivery.is_request_exception e); discriminate.
        -- intros (r' & [= <-] & _ & ->). reflexivity.
      * intros r' [= <-] Hr. contradiction.
      * intros e. destruct (Delivery.decoded r) as [a|e'] eqn:Hd; [discriminate|].
        destruct (Delivery.is_request_exception e') eqn:He; [discriminate|].
        intros [= <-]. split; [exact He|]. right. eauto.
  - split; [reflexivity|]. split; [|split].
    + intros ack. split.
      * destruct (Delivery.is_request_exception e); discriminate.
      * intros (r & [=] & _).
    + intros r [=].
    + intros e'. destruct (Delivery.is_request_exception e) eqn:He; [discriminate|].
      intros [= <-]. split; [exact He|]. now left.
Qed.

(** X13. [job] fails exactly when the snapshot does, and then nothing is
    sent; otherwise it sends, once, a snapshot that the collector's model
    accepts, and ends with the report of that sending, whatever the network
    does. *)
Theorem job_sends_valid_snapshot_or_fails {World : Type} (rt : Runtime)
    (post : Delivery.PostCall -> World -> Delivery.post_result * World)
    (h : Agent.Host) (w : World) :
  (forall e, (Delivery.job post h w).1 = Agent.Raises e <->
     Agent.process_iter h = Agent.Raises e /\
     Agent.process_handler_catches (Agent.exc_class e) = false) /\
  (forall e, (Delivery.job post h w).1 = Agent.Raises e ->
     (Delivery.job post h w).2 = w) /\
  (forall r, (Delivery.job post h w).1 = Agent.Returns r ->
     exists v, Agent.get_system_info h = Agent.Returns v /\
       is_Some (validate_SystemData rt v) /\
       (r, (Delivery.job post h w).2) =
       Delivery.send_data_to_api post v w /\
       (Delivery.job post h w).2 =
       (post {| Delivery.url := Delivery.API_URL; Delivery.json_body := v;
                Delivery.headers := Delivery.request_headers;
                Delivery.timeout := 15 |} w).2).
Proof.
  pose proof (get_system_info_raises h) as Hraises.
  pose proof (agent_snapshot_is_valid rt h) as Hvalid.
  unfold Delivery.job.
  destruct (Agent.get_system_info h) as [v|e0].
  - destruct (Delivery.send_data_to_api post v w) as [r0 w0] eqn:Hsend.
    cbn [fst snd]. split; [|split].
    + intros e. rewrite <- Hraises. split; discriminate.
    + discriminate.
    + intros r [= <-]. exists v. split; [reflexivity|].
      split; [now apply Hvalid|]. split; [now rewrite Hsend|].
      unfold Delivery.send_data_to_api in Hsend.
      destruct (post _ w) as [res w1]. now injection Hsend as _ <-.
  - cbn [fst snd]. split; [|split].
    + intros e. rewrite <- Hraises. split; intros [= ->]; reflexivity.
    + reflexivity.
    + discriminate.
Qed.

(** ** Blank lines *)

Section BlankLines.

Variable rt : Runtime.

Lemma records_before_error_filter lines :
  records_before_error rt (filter (fun l => Text.nonblank l = true) lines) =
  records_before_error rt lines.
Proof.
  induction lines as [|l lines IH]; [reflexivity|].
  rewrite filter_cons. simpl. destruct (Text.nonblank l) eqn:Hl.
  - rewrite decide_True by reflexivity. simpl. rewrite Hl.
    destruct (json_loads rt l); [now rewrite IH|reflexivity].
  - rewrite decide_False by discriminate. exact IH.
Qed.

Lemma glob_dom fs fs' pattern :
  dom fs = dom fs' -> glob rt fs pattern = glob rt fs' pattern.
Proof. intros H. unfold glob. now rewrite H. Qed.

End BlankLines.

(** X14. Blank lines never matter to a query: two directories with the same
    file names, from whose matching files the same non-blank lines are read
    in the same order, get the same answer. A line is blank when all its
    characters are white space, those above U+007F included. *)
Theorem blank_lines_are_skipped (rt : Runtime) (fs fs' : storage) (ip : string) :
  dom fs = dom fs' ->
  (forall f, f ∈ glob rt fs (search_pattern ip) ->
     filter (fun l => Text.nonblank l = true) (file_lines rt fs f) =
     filter (fun l => Text.nonblank l = true) (file_lines rt fs' f)) ->
  GET_query rt fs ip = GET_query rt fs' ip.
Proof.
  intros Hdom Hlines. unfold GET_query, query_data.
  rewrite <- (glob_dom rt fs fs' _ Hdom).
  destruct (glob rt fs (search_pattern ip)) as [|g gs] eqn:Hg; [reflexivity|].
  rewrite !read_files_spec.
  replace ((fun f => records_before_error rt (file_lines rt fs' f))
             <$> sorted_reverse (g :: gs))
    with ((fun f => records_before_error rt (file_lines rt fs f))
             <$> sorted_reverse (g :: gs)); [reflexivity|].
  apply Forall_fmap_ext_1, Forall_forall. intros f Hf.
  apply (proj1 (sorted_reverse_elem _ _)) in Hf.
  rewrite <- (records_before_error_filter rt (file_lines rt fs f)).
  rewrite <- (records_before_error_filter rt (file_lines rt fs' f)).
  now rewrite (Hlines f Hf).
Qed.

Lemma blank_lines_are_skipped_witness :
  GET_query py Sample2.fs_spaced "1.2.3.4" = GET_query py Sample2.fs_packed "1.2.3.4".
Proof.
  apply (blank_lines_are_skipped py Sample2.fs_spaced Sample2.fs_packed "1.2.3.4").
  - vm_compute. reflexivity.
  - intros f Hf.
    assert (Hglob : glob py Sample2.fs_spaced (search_pattern "1.2.3.4")
                    = [Sample.day1]) by (vm_compute; reflexivity).
    rewrite Hglob in Hf. apply list_elem_of_singleton in Hf as ->.
    vm_compute. reflexivity.
Defined.

(** ** Process entries, as they are stored *)

Lemma validate_ProcessInfo_Some e p :
  validate_ProcessInfo e = Some p ->
  exists d, e = JObj d /\
    get "pid" d = Some (JInt (pid p)) /\
    get "name" d = Some (JStr (name p)) /\
    dump_option JStr (username p) = default JNull (get "username" d) /\
    (get "username" d = None \/ get "username" d = Some JNull \/
     exists s, get "username" d = Some (JStr s)).
Proof.
  destruct e as [| | | | | |d]; try discriminate.
  unfold validate_ProcessInfo, required, optional. intros H. exists d.
  split; [reflexivity|].
  destruct (get "pid" d) as [[]|]; try discriminate H.
  destruct (get "name" d) as [[]|]; try discriminate H.
  destruct (get "username" d) as [[]|]; try discriminate H;
    injection H as <-; simpl; eauto 10.
Qed.

Lemma validate_ProcessInfo_None e :
  validate_ProcessInfo e = None -> ~ process_entry_spec e.
Proof.
  intros H (d & -> & [n Hn] & [s Hs] & Hu). revert H.
  unfold validate_ProcessInfo, required, optional. rewrite Hn, Hs.
  destruct Hu as [->|[->|[u ->]]]; discriminate.
Qed.

(** X15. The process entries of a valid body are stored one for one, in
    their order. An entry with an integer [pid], a string [name] and a
    [username] that is a string, null or absent is stored with exactly these
    three keys, the [username] null when it was absent; every other entry
    (any other dict, also one [ProcessInfo] would take with a coercion) is
    stored as it was sent. *)
Theorem process_entries_as_stored (rt : Runtime) (b : json) (data : SystemData) :
  validate_SystemData rt b = Some data ->
  exists sent stored,
    get "running_processes" (members b) = Some (JArr sent) /\
    get "running_processes" (members (model_dump data)) = Some (JArr stored) /\
    Forall2 (fun e s =>
               (process_entry_spec e /\
                exists n name,
                  get "pid" (members e) = Some (JInt n) /\
                  get "name" (members e) = Some (JStr name) /\
                  s = JObj [("pid", JInt n); ("name", JStr name);
                            ("username",
                              default JNull (get "username" (members e)))]) \/
               (~ process_entry_spec e /\ is_dict e = true /\ s = e))
            sent stored.
Proof.
  destruct b as [| | | | | |d]; try discriminate. intros H.
  unfold validate_SystemData in H.
  repeat (match type of H with
          | (?m ≫= _) = Some _ =>
              let E := fresh "E" in destruct m eqn:E; cbn in H; [|discriminate H]
          end).
  injection H as <-.
  match goal with
  | E : required validate_running_processes _ _ = Some _ |- _ =>
      apply required_Some in E as (v & Hget & E)
  end.
  destruct v as [| | | | |sent|]; try discriminate.
  exists sent. eexists. split; [exact Hget|]. split; [reflexivity|].
  cbn [running_processes]. unfold validate_running_processes in *.
  match goal with E : mapM _ _ = Some _ |- _ => apply mapM_Some in E; rename E into Hall end.
  apply Forall2_fmap_r. eapply Forall2_impl; [exact Hall|].
  intros e y Hy. destruct e as [| | | | | |de]; try discriminate.
  unfold validate_process_item in Hy.
  destruct (validate_ProcessInfo (JObj de)) as [p|] eqn:Hp; injection Hy as <-.
  - left. destruct (validate_ProcessInfo_Some _ _ Hp) as (d' & [= <-] & Hn & Hs & Hu & Hshape).
    split; [exists de; eauto 10|].
    exists (pid p), (name p). split; [exact Hn|]. split; [exact Hs|].
    unfold dump_process_item, dump_ProcessInfo. cbn [members]. now rewrite Hu.
  - right. split; [now apply validate_ProcessInfo_None|]. split; reflexivity.
Qed.

Lemma process_entries_as_stored_witness :
  exists sent stored,
    get "running_processes" (members Sample2.snapshot_pid_as_text) = Some (JArr sent) /\
    get "running_processes" (members (model_dump Sample2.model_pid_as_text))
    = Some (JArr stored) /\
    Forall2 (fun e s =>
               (process_entry_spec e /\
                exists n name,
                  get "pid" (members e) = Some (JInt n) /\
                  get "name" (members e) = Some (JStr name) /\
                  s = JObj [("pid", JInt n); ("name", JStr name);
                            ("username",
                              default JNull (get "username" (members e)))]) \/
               (~ process_entry_spec e /\ is_dict e = true /\ s = e))
            sent stored.
Proof.
  apply (process_entries_as_stored py Sample2.snapshot_pid_as_text
           Sample2.model_pid_as_text).
  vm_compute. reflexivity.
Defined.

(** ** The samples, run *)

(** A body whose [physical_cores] is the float [1e19] is refused; a [pid]
    given as a string leaves its entry as it was sent, and an integer one
    makes it a [ProcessInfo]. *)
Example coercions_on_samples :
  status (POST_collect py Sample.clock
            (Sample.request Sample.bearer Sample2.snapshot_huge_cores) ∅).1 = 422 /\
  validate_SystemData py Sample2.snapshot_pid_as_text = Some Sample2.model_pid_as_text /\
  validate_SystemData py Sample.snapshot = Some Sample.snapshot_model.
Proof. repeat split; vm_compute; reflexivity. Qed.

(** On the sample host, one job ends with the report of the network's
    answer, and the network was called once. *)
Example job_on_samples :
  Delivery.job Sample2.post_ok Sample.host 0%nat =
    (Agent.Returns
       (Delivery.Sent (JObj [("status", JStr "success");
                             ("message", JStr "Datos recibidos de 1.2.3.4")])),
     1%nat) /\
  Delivery.job Sample2.post_denied Sample.host 0%nat =
    (Agent.Returns (Delivery.ApiError (Delivery.StatusError 401)), 1%nat) /\
  Delivery.job Sample2.post_ok Sample.host_os_error 0%nat =
    (Agent.Raises (Sample.failure (Agent.OtherException "OSError")
                                  "[Errno 24] Too many open files"),
     0%nat).
Proof. repeat split; vm_compute; reflexivity. Qed.
